(** * Dynamics-GP-LLM: the text-to-SQL pipeline of [LLM.py]

    A shallow embedding of the pipeline (corpus loader, file selector,
    table extractor, table selector, table info gatherer, SQL synthesizer
    and orchestrator) together with the properties its specification states.

    Python values are embedded dynamically (type [pyval]); exceptions are the
    [Raise] outcome of [result]; the standard output and the requests sent to
    the chat service are threaded through the state monad [M].  What the
    source takes from the Python runtime and its libraries ([==] inside list
    membership, [repr], [json.loads], [glob.glob], [open], the [OpenAI]
    constructor) is the interface [Runtime].

    Strings are sequences of characters with code points below 256. *)

From Stdlib Require Import String Ascii List Bool Arith Lia ZArith.
From Stdlib Require Import Floats.SpecFloat.
Import ListNotations.
Open Scope string_scope.
Set Warnings "-register-all".

(* ================================================================= *)
(** ** Python values, exceptions *)

(** The values [json.load] produces, which are also the only values the
    pipeline handles: [None], [bool], [int], [float], [str], [list] and
    [dict] with [str] keys (in insertion order). *)
Inductive pyval : Type :=
| PyNone
| PyBool (b : bool)
| PyInt (z : Z)
| PyFloat (f : spec_float)
| PyStr (s : string)
| PyList (l : list pyval)
| PyDict (d : list (string * pyval)).

Definition pydict : Type := list (string * pyval).

Inductive exn : Type :=
| JSONDecodeError
| KeyError (key : pyval)
| TypeError
| AttributeError
| OSError
| APIError (msg : string).

Inductive result (A : Type) : Type :=
| Ok (a : A)
| Raise (e : exn).
Arguments Ok {A} a.
Arguments Raise {A} e.

Definition rbind {A B} (m : result A) (k : A -> result B) : result B :=
  match m with
  | Ok a => k a
  | Raise e => Raise e
  end.

Declare Scope result_scope.
Delimit Scope result_scope with result.
Notation "x <- m ;; k" := (rbind m (fun x => k))
  (at level 61, m at next level, right associativity) : result_scope.

(** A [for] loop whose body may raise: the accumulator is the state the
    body updates. *)
Fixpoint for_each {A S} (xs : list A) (body : S -> A -> result S) (acc : S)
  : result S :=
  match xs with
  | [] => Ok acc
  | x :: xs' => rbind (body acc x) (for_each xs' body)
  end.

(* ================================================================= *)
(** ** The runtime interface *)

(** One request to the chat service: the model name and the content of
    the single user message. *)
Definition request : Type := (string * string)%type.

(** A client answers a request, possibly depending on the requests made
    before it, with the text of the first choice or with an exception of
    the client library. *)
Definition openai_client : Type :=
  list request -> request -> result string.

Class Runtime : Type := {
  (** the comparison [x in l] applies to the elements of a list [l] *)
  py_eq : pyval -> pyval -> bool;
  (** [repr(v)] *)
  py_repr : pyval -> string;
  (** [json.loads(text)], [None] for [JSONDecodeError] *)
  json_loads : string -> option pyval;
  (** [glob.glob(pattern)] *)
  glob_glob : string -> list string;
  (** [open(path, 'r')] followed by reading the whole file *)
  open_read : string -> result string;
  (** [OpenAI(api_key=...)] *)
  OpenAI : string -> openai_client
}.

(* ================================================================= *)
(** ** Strings *)

Definition dq : string := String "034"%char EmptyString.
Definition nl : string := String "010"%char EmptyString.

Fixpoint starts_with (p s : string) : bool :=
  match p with
  | EmptyString => true
  | String a p' =>
      match s with
      | EmptyString => false
      | String b s' => Ascii.eqb a b && starts_with p' s'
      end
  end.

(** [needle in hay] on two [str]. *)
Fixpoint str_contains (needle hay : string) : bool :=
  starts_with needle hay ||
  match hay with
  | EmptyString => false
  | String _ hay' => str_contains needle hay'
  end.

(** [s.replace(old, new)] for a non-empty [old]: the occurrences are
    found from the left and do not overlap.  [skip] counts the characters
    of the current occurrence still to be dropped. *)
Fixpoint replace_from (old new : string) (skip : nat) (s : string) : string :=
  match s with
  | EmptyString => EmptyString
  | String c s' =>
      match skip with
      | S k => replace_from old new k s'
      | O =>
          if starts_with old s
          then new ++ replace_from old new (String.length old - 1) s'
          else String c (replace_from old new 0 s')
      end
  end.

(** With an empty [old], [new] is inserted before every character and at
    the end. *)
Fixpoint interleave (new s : string) : string :=
  match s with
  | EmptyString => new
  | String c s' => new ++ String c (interleave new s')
  end.

Definition str_replace (s old new : string) : string :=
  match old with
  | EmptyString => interleave new s
  | _ => replace_from old new 0 s
  end.

(** [str.isspace] on a character below 256. *)
Definition is_space (c : ascii) : bool :=
  let n := nat_of_ascii c in
  (((9 <=? n) && (n <=? 13)) || ((28 <=? n) && (n <=? 32))
   || (n =? 133) || (n =? 160))%nat.

Fixpoint str_lstrip (s : string) : string :=
  match s with
  | EmptyString => EmptyString
  | String c s' => if is_space c then str_lstrip s' else s
  end.

Fixpoint str_rstrip (s : string) : string :=
  match s with
  | EmptyString => EmptyString
  | String c s' =>
      match str_rstrip s' with
      | EmptyString => if is_space c then EmptyString else String c EmptyString
      | r => String c r
      end
  end.

(** [s.strip()] *)
Definition str_strip (s : string) : string := str_rstrip (str_lstrip s).

(** [os.path.basename]: what follows the last slash. *)
Fixpoint basename_from (acc p : string) : string :=
  match p with
  | EmptyString => acc
  | String c p' =>
      if Ascii.eqb c "/"%char then basename_from EmptyString p'
      else basename_from (acc ++ String c EmptyString) p'
  end.

Definition basename (p : string) : string := basename_from EmptyString p.

(** The expression both selectors apply to the response text:
    [response_text.replace('```json', '').replace('```', '').strip()]. *)
Definition strip_fences (response_text : string) : string :=
  str_strip (str_replace (str_replace response_text "```json" "") "```" "").

(* ================================================================= *)
(** ** Operations on Python values *)

Open Scope result_scope.

Fixpoint dict_lookup (k : string) (d : pydict) : option pyval :=
  match d with
  | [] => None
  | (k', v) :: d' => if String.eqb k' k then Some v else dict_lookup k d'
  end.

Definition dict_mem (k : string) (d : pydict) : bool :=
  match dict_lookup k d with
  | Some _ => true
  | None => false
  end.

(** [d[k] = v]: an existing key keeps its position. *)
Fixpoint dict_set (d : pydict) (k : string) (v : pyval) : pydict :=
  match d with
  | [] => [(k, v)]
  | (k', v') :: d' =>
      if String.eqb k' k then (k, v) :: d' else (k', v') :: dict_set d' k v
  end.

(** [list(d.keys())] *)
Definition dict_keys (d : pydict) : list string := map fst d.

Fixpoint chars (s : string) : list pyval :=
  match s with
  | EmptyString => []
  | String c s' => PyStr (String c EmptyString) :: chars s'
  end.

(** What a [for] loop (or a generator) iterates over. *)
Definition py_iter (v : pyval) : result (list pyval) :=
  match v with
  | PyList l => Ok l
  | PyStr s => Ok (chars s)
  | PyDict d => Ok (map (fun kv => PyStr (fst kv)) d)
  | _ => Raise TypeError
  end.

(** [k in d] for a dict [d] with [str] keys: lists and dicts are not
    hashable, other values are never equal to a [str] key. *)
Definition py_in_dict (k : pyval) (d : pydict) : result bool :=
  match k with
  | PyStr s => Ok (dict_mem s d)
  | PyList _ | PyDict _ => Raise TypeError
  | _ => Ok false
  end.

(** [d[k]] for a dict [d] with [str] keys. *)
Definition py_dict_getitem (d : pydict) (k : pyval) : result pyval :=
  match k with
  | PyStr s =>
      match dict_lookup s d with
      | Some v => Ok v
      | None => Raise (KeyError k)
      end
  | PyList _ | PyDict _ => Raise TypeError
  | _ => Raise (KeyError k)
  end.

(** [x in c] *)
Definition py_contains `{Runtime} (c x : pyval) : result bool :=
  match c with
  | PyStr hay =>
      match x with
      | PyStr needle => Ok (str_contains needle hay)
      | _ => Raise TypeError
      end
  | PyList l => Ok (existsb (py_eq x) l)
  | PyDict d => py_in_dict x d
  | _ => Raise TypeError
  end.

(** [v[k]] for a [str] literal [k]: only a dict can be subscripted by a
    [str]. *)
Definition py_getitem_str (v : pyval) (k : string) : result pyval :=
  match v with
  | PyDict d => py_dict_getitem d (PyStr k)
  | _ => Raise TypeError
  end.

(** [v.get(k, default)] *)
Definition py_get (v : pyval) (k : string) (default : pyval) : result pyval :=
  match v with
  | PyDict d =>
      match dict_lookup k d with
      | Some x => Ok x
      | None => Ok default
      end
  | _ => Raise AttributeError
  end.

(** [any(p(x) for x in xs)]: stops at the first true element. *)
Fixpoint py_any {A} (p : A -> result bool) (xs : list A) : result bool :=
  match xs with
  | [] => Ok false
  | x :: xs' => b <- p x ;; if b then Ok true else py_any p xs'
  end.

(** [str(v)], which is also what an f-string field [{v}] inserts. *)
Definition py_str `{Runtime} (v : pyval) : string :=
  match v with
  | PyStr s => s
  | _ => py_repr v
  end.

(** [json.load(file)] on the text of the file. *)
Definition json_load `{Runtime} (text : string) : result pyval :=
  match json_loads text with
  | Some v => Ok v
  | None => Raise JSONDecodeError
  end.

(* ================================================================= *)
(** ** Corpus loader *)

Definition default_folder_path : string := "prospr/*.json".

(** The dict built for one element that has the key. *)
Definition table_info_of (table : pyval) : result pyval :=
  table_name <- py_getitem_str table "table_name" ;;
  table_description <- py_get table "table_description" (PyStr "") ;;
  columns <- py_get table "columns" (PyList []) ;;
  Ok (PyDict [("table_name", table_name);
              ("table_description", table_description);
              ("columns", columns)]).

(** The list [file_structure[file_name]] ends up with, from the loaded
    value [data]. *)
Definition load_tables `{Runtime} (data : pyval) : result (list pyval) :=
  match data with
  | PyList l =>
      for_each l
        (fun tables table =>
           has_name <- py_contains table (PyStr "table_name") ;;
           if has_name : bool
           then table_info <- table_info_of table ;;
                Ok (tables ++ [table_info])%list
           else Ok tables)
        []
  | _ => Ok []
  end.

(** One iteration of the loop over the files. *)
Definition load_file `{Runtime} (file_structure : pydict) (json_file : string)
  : result pydict :=
  let file_name := basename json_file in
  text <- open_read json_file ;;
  data <- json_load text ;;
  tables <- load_tables data ;;
  Ok (dict_set file_structure file_name (PyList tables)).

Definition get_table_clusters `{Runtime} (folder_path : string)
  : result pydict :=
  let json_files := glob_glob folder_path in
  for_each json_files load_file [].

(* ================================================================= *)
(** ** Table extractor and table info gatherer *)

Definition get_tables_from_files `{Runtime} (file_names : pyval) (data : pydict)
  : result (list string) :=
  fns <- py_iter file_names ;;
  for_each fns
    (fun table_names file_name =>
       present <- py_in_dict file_name data ;;
       if present : bool
       then
         tables <- py_dict_getitem data file_name ;;
         rows <- py_iter tables ;;
         for_each rows
           (fun table_names table =>
              n <- py_getitem_str table "table_name" ;;
              d <- py_getitem_str table "table_description" ;;
              let combined_str := py_str n ++ " : " ++ py_str d in
              Ok (table_names ++ [combined_str])%list)
           table_names
       else Ok table_names)
    [].

Definition grab_table_info `{Runtime} (relevant_tables file_names : pyval)
  (data : pydict) : result (list pyval) :=
  fns <- py_iter file_names ;;
  for_each fns
    (fun table_info file_name =>
       present <- py_in_dict file_name data ;;
       if present : bool
       then
         tables <- py_dict_getitem data file_name ;;
         rows <- py_iter tables ;;
         for_each rows
           (fun table_info table =>
              table_name <- py_getitem_str table "table_name" ;;
              rts <- py_iter relevant_tables ;;
              hit <- py_any (fun rt => py_contains rt table_name) rts ;;
              if hit : bool
              then
                d <- py_getitem_str table "table_description" ;;
                c <- py_getitem_str table "columns" ;;
                Ok (table_info ++
                    [PyDict [("table_name", table_name);
                             ("table_description", d);
                             ("columns", c)]])%list
              else Ok table_info)
           table_info
       else Ok table_info)
    [].

(* ================================================================= *)
(** ** Output and the chat service *)

(** What a run has printed (one entry per [print]) and the requests it
    has sent, oldest first. *)
Record world : Type := {
  stdout : list string;
  requests : list request
}.

Definition M (A : Type) : Type := world -> result A * world.

Definition ret {A} (a : A) : M A := fun w => (Ok a, w).

Definition bind {A B} (m : M A) (k : A -> M B) : M B :=
  fun w =>
    match m w with
    | (Ok a, w') => k a w'
    | (Raise e, w') => (Raise e, w')
    end.

Definition lift {A} (r : result A) : M A := fun w => (r, w).

Declare Scope M_scope.
Delimit Scope M_scope with M.
Notation "x <- m ;; k" := (bind m (fun x => k))
  (at level 61, m at next level, right associativity) : M_scope.
Notation "m ;; k" := (bind m (fun _ => k))
  (at level 61, right associativity) : M_scope.

Definition print (text : string) : M unit :=
  fun w => (Ok tt, {| stdout := stdout w ++ [text]; requests := requests w |}).

(** [client.chat.completions.create(model=..., messages=[one user
    message])] followed by [.choices[0].message.content]. *)
Definition chat_completions_create (client : openai_client) (model content : string)
  : M string :=
  fun w =>
    (client (requests w) (model, content),
     {| stdout := stdout w; requests := requests w ++ [(model, content)] |}).

Definition create_openai_client `{Runtime} (api_key : string)
  : openai_client :=
  OpenAI api_key.

(* ================================================================= *)
(** ** File selector *)

Definition files_system_prompt : string :=
  "You are a database expert that helps identify relevant database files." ++ nl ++ "                        You must return your response as a valid JSON object with the following structure:" ++ nl ++ "                        {" ++ nl ++ "                            " ++ dq ++ "relevant_files" ++ dq ++ ": [" ++ dq ++ "file1.json" ++ dq ++ ", " ++ dq ++ "file2.json" ++ dq ++ "]" ++ nl ++ "                        }" ++ nl ++ "                        Only include files that are directly relevant to the user's query.".

Definition files_user_prompt `{Runtime} (file_names : list string)
  (prompt : string) : string :=
  "Given the following user query: " ++ dq
  ++ prompt
  ++ dq ++ nl ++ "                        Which of these database files are relevant?" ++ nl ++ "                        Available files: "
  ++ py_str (PyList (map PyStr file_names))
  ++ nl ++ "                        Return only the relevant files in the specified JSON format.".

Definition get_relevant_files `{Runtime} (client : openai_client)
  (file_names : list string)
  (prompt : string) : M pyval :=
  (let system_prompt := files_system_prompt in
   let user_prompt := files_user_prompt file_names prompt in
   print "---- get_relevant_files Prompt ----" ;;
   print (system_prompt ++ nl ++ nl ++ user_prompt) ;;
   response_text <-
     chat_completions_create client "gpt-4o-mini"
       (system_prompt ++ nl ++ nl ++ user_prompt) ;;
   let response_text := strip_fences response_text in
   print "---- get_relevant_files Response ----" ;;
   print response_text ;;
   response_json <- lift (json_load response_text) ;;
   lift (py_getitem_str response_json "relevant_files"))%M.

(* ================================================================= *)
(** ** Table selector *)

Definition tables_system_prompt : string :=
  "You are a database expert that helps identify relevant tables" ++ nl ++ "                    You must return your response as a valid JSON object with the following structure:" ++ nl ++ "                    {" ++ nl ++ "                        " ++ dq ++ "relevant_tables" ++ dq ++ ": [" ++ dq ++ "table1" ++ dq ++ ", " ++ dq ++ "table2" ++ dq ++ "]" ++ nl ++ "                    }" ++ nl ++ "                    Only include tables that are directly relevant to the user's query.".

Definition tables_user_prompt `{Runtime} (tables : list string)
  (prompt : string) : string :=
  "Given the following user query:" ++ dq
  ++ prompt
  ++ dq ++ nl ++ "                    Which of these database tables are relevant?" ++ nl ++ "                    Available tables: "
  ++ py_str (PyList (map PyStr tables))
  ++ nl ++ "                    Return only the relevant files in the specified JSON format.".

Definition pick_relevant_tables `{Runtime} (client : openai_client)
  (tables : list string)
  (prompt : string) : M pyval :=
  (let system_prompt := tables_system_prompt in
   let user_prompt := tables_user_prompt tables prompt in
   print (system_prompt ++ nl ++ nl ++ user_prompt) ;;
   response_text <-
     chat_completions_create client "gpt-4o"
       (system_prompt ++ nl ++ nl ++ user_prompt) ;;
   let response_text := strip_fences response_text in
   print "---- pick_relevant_tables Response ----" ;;
   print response_text ;;
   response_json <- lift (json_load response_text) ;;
   lift (py_getitem_str response_json "relevant_tables"))%M.

(* ================================================================= *)
(** ** SQL synthesizer *)

Definition sql_system_prompt : string :=
  "You are a database expert that helps generate SQL queries" ++ nl ++ "                        You must return your response as a valid SQL query.".

Definition sql_user_prompt `{Runtime} (relevant_tables : pyval)
  (prompt : string) (columns : list pyval) : string :=
  "Given the following user query: " ++ dq
  ++ prompt
  ++ dq ++ nl ++ "                    and these relevant tables: "
  ++ py_str relevant_tables
  ++ nl ++ "                    and these relevant columns: "
  ++ py_str (PyList columns)
  ++ nl ++ "                    Return a sql query that will answer the user's query.".

Definition generate_sql `{Runtime} (client : openai_client)
  (relevant_tables : pyval)
  (prompt : string) (columns : list pyval) : M string :=
  (let system_prompt := sql_system_prompt in
   let user_prompt := sql_user_prompt relevant_tables prompt columns in
   print "---- generate_sql Prompt ----" ;;
   print (system_prompt ++ nl ++ nl ++ user_prompt) ;;
   chat_completions_create client "gpt-4o"
     (system_prompt ++ nl ++ nl ++ user_prompt))%M.

(* ================================================================= *)
(** ** Orchestrator *)

(** The dict [run_full_process] returns, one field per key. *)
Record result_bundle : Type := {
  all_data : pydict;
  file_names : list string;
  relevant_files : pyval;
  tables : list string;
  relevant_tables : pyval;
  columns_info : list pyval;
  final_sql_query : string
}.

Definition run_full_process `{Runtime} (api_key user_prompt : string)
  : M result_bundle :=
  (data <- lift (get_table_clusters default_folder_path) ;;
   let client := create_openai_client api_key in
   let file_names := dict_keys data in
   relevant_files <- get_relevant_files client file_names user_prompt ;;
   tables <- lift (get_tables_from_files relevant_files data) ;;
   relevant_tables <- pick_relevant_tables client tables user_prompt ;;
   columns_info <- lift (grab_table_info relevant_tables relevant_files data) ;;
   sql_query <-
     generate_sql client relevant_tables user_prompt columns_info ;;
   ret {| all_data := data;
          file_names := file_names;
          relevant_files := relevant_files;
          tables := tables;
          relevant_tables := relevant_tables;
          columns_info := columns_info;
          final_sql_query := sql_query |})%M.

Definition empty_world : world := {| stdout := []; requests := [] |}.

(* ================================================================= *)
(** ** The data model of the specification *)

(** A table descriptor with a [str] name, a [str] description and a
    sequence of opaque column records, and its value as a Python dict. *)
Record TableDescriptor : Type := {
  td_name : string;
  td_description : string;
  td_columns : list pyval
}.

Definition corpus : Type := list (string * list TableDescriptor).

Definition descriptor_value (t : TableDescriptor) : pyval :=
  PyDict [("table_name", PyStr (td_name t));
          ("table_description", PyStr (td_description t));
          ("columns", PyList (td_columns t))].

Definition corpus_value (c : corpus) : pydict :=
  map (fun e => (fst e, PyList (map descriptor_value (snd e)))) c.

(** A sequence of [str] as a Python list. *)
Definition str_list (l : list string) : pyval := PyList (map PyStr l).

Fixpoint corpus_lookup (f : string) (c : corpus)
  : option (list TableDescriptor) :=
  match c with
  | [] => None
  | (f', ts) :: c' => if String.eqb f' f then Some ts else corpus_lookup f c'
  end.

(** The descriptors of a selected file: none when the corpus does not
    have the file. *)
Definition tables_of_file (c : corpus) (f : string) : list TableDescriptor :=
  match corpus_lookup f c with
  | Some ts => ts
  | None => []
  end.

Definition table_string (t : TableDescriptor) : string :=
  td_name t ++ " : " ++ td_description t.

(** The name of [t] is contained in an entry of [rts]. *)
Definition name_matches (rts : list string) (t : TableDescriptor) : bool :=
  existsb (str_contains (td_name t)) rts.

(** The strings and the descriptors one selected file contributes. *)
Definition file_strings (c : corpus) (f : string) : list string :=
  map table_string (tables_of_file c f).

Definition file_matches (c : corpus) (rts : list string) (f : string)
  : list TableDescriptor :=
  filter (name_matches rts) (tables_of_file c f).

(** The value a key has in a dict, or a default. *)
Definition dict_get_default (k : string) (d : pydict) (default : pyval)
  : pyval :=
  match dict_lookup k d with
  | Some v => v
  | None => default
  end.

(** The descriptor the loader builds from a JSON object. *)
Definition built_descriptor (d : pydict) : pyval :=
  PyDict [("table_name", dict_get_default "table_name" d PyNone);
          ("table_description",
            dict_get_default "table_description" d (PyStr ""));
          ("columns", dict_get_default "columns" d (PyList []))].

(** What one element of a loaded array contributes. *)
Definition element_tables (v : pyval) : list pyval :=
  match v with
  | PyDict d => if dict_mem "table_name" d then [built_descriptor d] else []
  | _ => []
  end.

Definition built_descriptors (l : list pyval) : list pyval :=
  flat_map element_tables l.

(** An array element the loader can handle: an object, or a string or an
    array in which ['table_name' in element] is false. *)
Definition element_ok `{Runtime} (v : pyval) : bool :=
  match v with
  | PyDict _ => true
  | PyStr s => negb (str_contains "table_name" s)
  | PyList l => negb (existsb (py_eq (PyStr "table_name")) l)
  | _ => false
  end.

(** A dict with exactly the three keys of a table descriptor. *)
Definition has_three_fields (v : pyval) : Prop :=
  exists n d c,
    v = PyDict [("table_name", n); ("table_description", d); ("columns", c)].

Definition well_formed_data (data : pydict) : Prop :=
  Forall (fun e => exists ts, snd e = PyList ts /\ Forall has_three_fields ts)
    data.

Definition all_space (s : string) : bool :=
  forallb is_space (list_ascii_of_string s).

(** Fence-stripping as the specification words it: a marker is removed
    only where the text starts or ends with it.  Used for comparison with
    [strip_fences]. *)
Fixpoint str_drop (n : nat) (s : string) : string :=
  match n, s with
  | S k, String _ s' => str_drop k s'
  | _, _ => s
  end.

Fixpoint str_rev (s : string) : string :=
  match s with
  | EmptyString => EmptyString
  | String c s' => str_rev s' ++ String c EmptyString
  end.

Definition strip_fences_at_ends (response_text : string) : string :=
  let t := str_strip response_text in
  let t := if starts_with "```json" t then str_drop 7 t
           else if starts_with "```" t then str_drop 3 t
           else t in
  let t := if starts_with "```" (str_rev t)
           then str_rev (str_drop 3 (str_rev t))
           else t in
  str_strip t.

(* ================================================================= *)
(** ** A runtime for the examples *)

(** Test doubles: a file system given as a list of paths with their
    text, a JSON decoder that knows the texts below, and a client that
    answers the i-th request with the i-th of a list of texts. *)

Definition orders_descriptor : TableDescriptor :=
  {| td_name := "orders";
     td_description := "sales orders";
     td_columns := [PyStr "id"; PyStr "amount"; PyStr "date"] |}.

Definition orders_corpus : corpus := [("a.json", [orders_descriptor])].

Definition orders_file_text : string :=
  "[{" ++ dq ++ "table_name" ++ dq ++ ": " ++ dq ++ "orders" ++ dq ++ ", "
  ++ dq ++ "table_description" ++ dq ++ ": " ++ dq ++ "sales orders" ++ dq
  ++ ", " ++ dq ++ "columns" ++ dq ++ ": [" ++ dq ++ "id" ++ dq ++ ", "
  ++ dq ++ "amount" ++ dq ++ ", " ++ dq ++ "date" ++ dq ++ "]}]".

Definition files_answer_text : string :=
  "{" ++ dq ++ "relevant_files" ++ dq ++ ": [" ++ dq ++ "a.json" ++ dq ++ "]}".

Definition tables_answer_text : string :=
  "{" ++ dq ++ "relevant_tables" ++ dq ++ ": [" ++ dq ++ "orders" ++ dq ++ "]}".

Definition other_key_text : string :=
  "{" ++ dq ++ "files" ++ dq ++ ": []}".

Definition example_texts : list (string * pyval) :=
  [(orders_file_text, PyList [descriptor_value orders_descriptor]);
   (files_answer_text, PyDict [("relevant_files", str_list ["a.json"])]);
   (tables_answer_text, PyDict [("relevant_tables", str_list ["orders"])]);
   (other_key_text, PyDict [("files", PyList [])]);
   ("{}", PyDict []);
   ("[]", PyList []);
   ("[1]", PyList [PyInt 1]);
   ("null", PyNone)].

Fixpoint example_loads (known : list (string * pyval)) (text : string)
  : option pyval :=
  match known with
  | [] => None
  | (t, v) :: known' =>
      if String.eqb t text then Some v else example_loads known' text
  end.

Fixpoint example_repr (v : pyval) : string :=
  match v with
  | PyNone => "None"
  | PyBool true => "True"
  | PyBool false => "False"
  | PyInt _ => "<int>"
  | PyFloat _ => "<float>"
  | PyStr s => "'" ++ s ++ "'"
  | PyList l => "[" ++ String.concat ", " (map example_repr l) ++ "]"
  | PyDict d =>
      "{" ++ String.concat ", "
               (map (fun kv =>
                       match kv with
                       | (k, x) => "'" ++ k ++ "': " ++ example_repr x
                       end) d)
      ++ "}"
  end.

(** The examples compare only [str] values. *)
Definition example_eq (x y : pyval) : bool :=
  match x, y with
  | PyStr a, PyStr b => String.eqb a b
  | _, _ => false
  end.

Definition example_client (answers : list string) : openai_client :=
  fun history _ =>
    match nth_error answers (List.length history) with
    | Some text => Ok text
    | None => Raise (APIError "no answer")
    end.

Fixpoint example_read (files : list (string * string)) (path : string)
  : result string :=
  match files with
  | [] => Raise OSError
  | (p, text) :: files' =>
      if String.eqb p path then Ok text else example_read files' path
  end.

Definition example_runtime (files : list (string * string))
  (answers : list string) : Runtime :=
  {| py_eq := example_eq;
     py_repr := example_repr;
     json_loads := example_loads example_texts;
     glob_glob := fun _ => map fst files;
     open_read := example_read files;
     OpenAI := fun _ => example_client answers |}.

Definition orders_files : list (string * string) :=
  [("prospr/a.json", orders_file_text)].

Definition fenced_sql : string :=
  "```sql" ++ nl ++ "SELECT * FROM orders;" ++ nl ++ "```".

(* ================================================================= *)
(** ** Definitions for the statements *)

(** [s] has no character [c]. *)
Fixpoint avoids (c : ascii) (s : string) : bool :=
  match s with
  | EmptyString => true
  | String a s' => negb (Ascii.eqb a c) && avoids c s'
  end.

(** The number of characters [c] a text starts with. *)
Fixpoint run_length (c : ascii) (s : string) : nat :=
  match s with
  | EmptyString => 0
  | String a s' => if Ascii.eqb a c then S (run_length c s') else 0
  end.

(** The request each stage sends. *)
Definition files_request `{Runtime} (file_names : list string) (prompt : string)
  : request :=
  ("gpt-4o-mini",
   files_system_prompt ++ nl ++ nl ++ files_user_prompt file_names prompt).

Definition tables_request `{Runtime} (tables : list string) (prompt : string)
  : request :=
  ("gpt-4o",
   tables_system_prompt ++ nl ++ nl ++ tables_user_prompt tables prompt).

Definition sql_request `{Runtime} (relevant_tables : pyval) (prompt : string)
  (columns : list pyval) : request :=
  ("gpt-4o",
   sql_system_prompt ++ nl ++ nl
   ++ sql_user_prompt relevant_tables prompt columns).

(** What a selector returns for a response text. *)
Definition parse_selection `{Runtime} (key response_text : string) : result pyval :=
  rbind (json_load (strip_fences response_text))
        (fun response_json => py_getitem_str response_json key).

(** The body of the loop of [load_tables]. *)
Definition load_step `{Runtime} (tables : list pyval) (table : pyval)
  : result (list pyval) :=
  has_name <- py_contains table (PyStr "table_name") ;;
  if has_name : bool
  then table_info <- table_info_of table ;;
       Ok (tables ++ [table_info])%list
  else Ok tables.

(** The only exception a computation raises is [TypeError]. *)
Definition only_type_error {A} (r : result A) : Prop :=
  match r with
  | Ok _ => True
  | Raise e => e = TypeError
  end.

(** The number of entries with a property. *)
Definition count_if {A} (p : A -> bool) (l : list A) : nat :=
  List.length (filter p l).

(** Inputs of the examples. *)
Definition number_files : list (string * string) :=
  [("prospr/n.json", "[1]")].

Definition example_objects : list pyval :=
  [PyDict [("table_name", PyStr "customers")];
   PyDict [("table_description", PyStr "no name")]].

Definition example_elements : list pyval :=
  [PyDict [("table_name", PyStr "customers")];
   PyDict [("table_description", PyStr "no name")];
   PyStr "note"].

Definition null_files : list (string * string) :=
  [("prospr/a.json", orders_file_text);
   ("prospr/n.json", "null");
   ("prospr/z.json", "[]")].

Definition broken_files : list (string * string) :=
  [("prospr/a.json", orders_file_text);
   ("prospr/broken.json", "{not json")].

Definition fenced (a s b : string) : string :=
  "```json" ++ a ++ s ++ b ++ "```".

Definition marker_inside : string :=
  "[" ++ dq ++ "a```b" ++ dq ++ "]".

Definition scenario_answers : list string :=
  [files_answer_text; tables_answer_text; "SELECT * FROM orders;"].

Definition invalid_answers : list string := ["I cannot answer that."].
Definition other_key_answers : list string :=
  [files_answer_text; "```json" ++ nl ++ other_key_text ++ nl ++ "```"].

(** Answers that are valid JSON but not an object. *)
Definition array_answers : list string := ["[]"].
Definition null_answers : list string := [files_answer_text; "null"].

(* ================================================================= *)
(** ** The entry point *)

Definition main_api_key : string := "".

Definition main_prompt : string :=
  "I want to know the sales for the year 2024 for BLUE CHARGERS".

Definition final_query_header : string := nl ++ "---- Final SQL Query ----".

(** The block under [if __name__ == "__main__"]. *)
Definition main `{Runtime} : M unit :=
  (let api_key := main_api_key in
   let prompt := main_prompt in
   results <- run_full_process api_key prompt ;;
   print final_query_header ;;
   print (final_sql_query results))%M.

(* ================================================================= *)
(** ** More definitions for the statements *)

(** The keys of a dict after [d[k] = v]: a new key goes to the end. *)
Definition add_key (keys : list string) (k : string) : list string :=
  if existsb (String.eqb k) keys then keys else (keys ++ [k])%list.

(** The names in the order of their first occurrence. *)
Definition first_occurrences (names : list string) : list string :=
  fold_left add_key names [].

(** Every table of every file of a corpus. *)
Definition corpus_tables (data : pydict) : list pyval :=
  flat_map (fun e => match snd e with PyList ts => ts | _ => [] end) data.

(** The one-character strings of a string, as iterating over a [str]
    gives them. *)
Fixpoint singletons (s : string) : list string :=
  match s with
  | EmptyString => []
  | String c s' => String c EmptyString :: singletons s'
  end.

(** Values that can be looked up in a dict: all but lists and dicts. *)
Definition hashable (v : pyval) : bool :=
  match v with
  | PyList _ | PyDict _ => false
  | _ => true
  end.

(** The [str] entries of a list of values. *)
Fixpoint str_entries (l : list pyval) : list string :=
  match l with
  | [] => []
  | PyStr s :: l' => s :: str_entries l'
  | _ :: l' => str_entries l'
  end.

Definition is_str (v : pyval) : bool :=
  match v with
  | PyStr _ => true
  | _ => false
  end.

(** The model names of a run, in the order of the stages. *)
Definition stage_models : list string := ["gpt-4o-mini"; "gpt-4o"; "gpt-4o"].

(** Inputs of further examples. *)
Definition same_name_files : list (string * string) :=
  [("x/a.json", orders_file_text);
   ("y/b.json", "[]");
   ("z/a.json", "null")].

(** A runtime whose pattern matches a path that cannot be opened. *)
Definition unreadable_runtime : Runtime :=
  {| py_eq := example_eq;
     py_repr := example_repr;
     json_loads := example_loads example_texts;
     glob_glob := fun _ =>
       ["prospr/a.json"; "prospr/missing.json"; "prospr/z.json"];
     open_read := example_read
       [("prospr/a.json", orders_file_text); ("prospr/z.json", "[]")];
     OpenAI := fun _ => example_client [] |}.

Definition number_then_orders : list (string * string) :=
  [("prospr/n.json", "[1]"); ("prospr/a.json", orders_file_text)].

(** The bodies of the loops of [get_tables_from_files] and
    [grab_table_info], named for the statements about them. *)
Definition extract_row `{Runtime} (table_names : list string) (table : pyval)
  : result (list string) :=
  n <- py_getitem_str table "table_name" ;;
  d <- py_getitem_str table "table_description" ;;
  let combined_str := py_str n ++ " : " ++ py_str d in
  Ok (table_names ++ [combined_str])%list.

Definition extract_step `{Runtime} (data : pydict) (table_names : list string)
  (file_name : pyval) : result (list string) :=
  present <- py_in_dict file_name data ;;
  if present : bool
  then
    tables <- py_dict_getitem data file_name ;;
    rows <- py_iter tables ;;
    for_each rows extract_row table_names
  else Ok table_names.

Definition gather_row `{Runtime} (relevant_tables : pyval)
  (table_info : list pyval) (table : pyval) : result (list pyval) :=
  table_name <- py_getitem_str table "table_name" ;;
  rts <- py_iter relevant_tables ;;
  hit <- py_any (fun rt => py_contains rt table_name) rts ;;
  if hit : bool
  then
    d <- py_getitem_str table "table_description" ;;
    c <- py_getitem_str table "columns" ;;
    Ok (table_info ++
        [PyDict [("table_name", table_name);
                 ("table_description", d);
                 ("columns", c)]])%list
  else Ok table_info.

Definition gather_step `{Runtime} (relevant_tables : pyval) (data : pydict)
  (table_info : list pyval) (file_name : pyval) : result (list pyval) :=
  present <- py_in_dict file_name data ;;
  if present : bool
  then
    tables <- py_dict_getitem data file_name ;;
    rows <- py_iter tables ;;
    for_each rows (gather_row relevant_tables) table_info
  else Ok table_info.

(** A value [x in v] raises [TypeError] for, whatever [x] is. *)
Definition not_a_container (v : pyval) : bool :=
  match v with
  | PyNone | PyBool _ | PyInt _ | PyFloat _ => true
  | _ => false
  end.

(** The string the extractor makes of a name and a description, and
    what it means for a string to be that of a table of a corpus. *)
Definition table_text `{Runtime} (n d : pyval) : string :=
  py_str n ++ " : " ++ py_str d.

Definition is_string_of `{Runtime} (data : pydict) (s : string) : Prop :=
  exists n d c,
    In (PyDict [("table_name", n); ("table_description", d); ("columns", c)])
       (corpus_tables data)
    /\ s = table_text n d.

Definition scenario_bundle : result_bundle :=
  {| all_data := corpus_value orders_corpus;
     file_names := ["a.json"];
     relevant_files := str_list ["a.json"];
     tables := ["orders : sales orders"];
     relevant_tables := str_list ["orders"];
     columns_info := [descriptor_value orders_descriptor];
     final_sql_query := "SELECT * FROM orders;" |}.

Definition unknown_answer_text : string :=
  "{" ++ dq ++ "relevant_files" ++ dq ++ ": [" ++ dq ++ "zz.json" ++ dq ++ "]}".

Definition number_name_text : string :=
  "[{" ++ dq ++ "table_name" ++ dq ++ ": 5}]".

Definition more_texts : list (string * pyval) :=
  (example_texts ++
   [(unknown_answer_text, PyDict [("relevant_files", str_list ["zz.json"])]);
    (number_name_text, PyList [PyDict [("table_name", PyInt 5)]])])%list.

Definition more_runtime (files : list (string * string))
  (answers : list string) : Runtime :=
  {| py_eq := example_eq;
     py_repr := example_repr;
     json_loads := example_loads more_texts;
     glob_glob := fun _ => map fst files;
     open_read := example_read files;
     OpenAI := fun _ => example_client answers |}.

Definition unknown_answers : list string :=
  [unknown_answer_text; tables_answer_text; "SELECT 1;"].

Definition number_name_files : list (string * string) :=
  [("prospr/n.json", number_name_text)].

Definition main_answers : list string :=
  [files_answer_text; tables_answer_text; fenced_sql].

(** The corpus a list of paths with their descriptors stands for. *)
Definition corpus_of_files (entries : list (string * list TableDescriptor))
  : corpus :=
  map (fun e => (basename (fst e), snd e)) entries.

(* ================================================================= *)
(** * Properties *)

Open Scope result_scope.

(* ================================================================= *)
(** ** Strings: matching, replacing, stripping *)

Lemma append_empty_r (s : string) : s ++ "" = s.
Proof. induction s as [|c s IH]; simpl; [reflexivity | now rewrite IH]. Qed.

Lemma append_assoc (s t u : string) : (s ++ t) ++ u = s ++ (t ++ u).
Proof. induction s as [|c s IH]; simpl; [reflexivity | now rewrite IH]. Qed.

Lemma avoids_app c s t :
  avoids c (s ++ t) = avoids c s && avoids c t.
Proof.
  induction s as [|a s IH]; simpl; [reflexivity|].
  now rewrite IH, andb_assoc.
Qed.

Lemma starts_with_length p s :
  starts_with p s = true -> String.length p <= String.length s.
Proof.
  revert s; induction p as [|a p IH]; intros [|b s]; simpl; intros H;
    try lia; try discriminate H.
  apply andb_true_iff in H as [_ H]. apply IH in H. lia.
Qed.

Lemma starts_with_app_r p s t :
  starts_with p s = true -> starts_with p (s ++ t) = true.
Proof.
  revert s; induction p as [|a p IH]; intros [|b s]; simpl; try easy.
  intros H. apply andb_true_iff in H as [Hab H].
  now rewrite Hab, IH.
Qed.

(** A string that ends with [c] does not occur at the start of a text
    without [c], and an occurrence of it cannot reach into such a text. *)
Lemma starts_with_avoids p c t :
  avoids c t = true -> starts_with (p ++ String c "") t = false.
Proof.
  revert t; induction p as [|a p IH]; intros [|b t]; simpl; try reflexivity.
  - intros H. apply andb_true_iff in H as [H _].
    rewrite Ascii.eqb_sym. apply negb_true_iff in H. now rewrite H.
  - intros H. apply andb_true_iff in H as [_ H].
    rewrite (IH t H). apply andb_false_r.
Qed.

Lemma starts_with_inside p c u t :
  avoids c t = true ->
  starts_with (p ++ String c "") (u ++ t) = true ->
  starts_with (p ++ String c "") u = true.
Proof.
  intros Ht. revert u.
  induction p as [|a p IH]; intros [|b u].
  - simpl append at 2. now rewrite (starts_with_avoids "" c t Ht).
  - simpl. intros H. apply andb_true_iff in H as [H _]. now rewrite H.
  - simpl append at 2.
    now rewrite (starts_with_avoids (String a p) c t Ht).
  - simpl. intros H. apply andb_true_iff in H as [Hab H].
    rewrite Hab. simpl. apply IH. exact H.
Qed.

Lemma starts_with_app_avoids p c u t :
  avoids c t = true ->
  starts_with (p ++ String c "") (u ++ t) = starts_with (p ++ String c "") u.
Proof.
  intros Ht.
  destruct (starts_with (p ++ String c "") u) eqn:Hu.
  - now apply starts_with_app_r.
  - destruct (starts_with (p ++ String c "") (u ++ t)) eqn:Hut; [|reflexivity].
    apply starts_with_inside in Hut; [congruence | exact Ht].
Qed.

(** Replacing nothing in a text that lacks the first character of [old]. *)
Lemma replace_from_head a old' new s x :
  avoids a s = true ->
  replace_from (String a old') new 0 (s ++ x)
  = s ++ replace_from (String a old') new 0 x.
Proof.
  induction s as [|b s IH]; simpl; [reflexivity|].
  intros H. apply andb_true_iff in H as [Hb Hs].
  apply negb_true_iff in Hb. rewrite Ascii.eqb_sym in Hb.
  rewrite Hb. simpl. now rewrite IH.
Qed.

(** A text that lacks the last character of [old] is left as it is when
    it follows the text in which [old] is replaced. *)
Lemma replace_from_tail p c new t :
  avoids c t = true ->
  forall s n, n <= String.length s ->
    replace_from (p ++ String c "") new n (s ++ t)
    = replace_from (p ++ String c "") new n s ++ t.
Proof.
  intros Ht. set (old := p ++ String c "").
  assert (Hid : replace_from old new 0 t = t).
  { clear -Ht. subst old. induction t as [|b t IH]; [reflexivity|].
    cbn [replace_from].
    rewrite (starts_with_avoids p c (String b t) Ht).
    simpl in Ht. apply andb_true_iff in Ht as [_ Ht]. now rewrite IH. }
  induction s as [|b s IH]; intros n Hn.
  - simpl in Hn. assert (n = 0) by lia. subst n. exact Hid.
  - simpl in Hn. destruct n as [|n].
    + change (String b s ++ t) with (String b (s ++ t)).
      cbn [replace_from].
      change (String b (s ++ t)) with (String b s ++ t).
      unfold old at 1 3. rewrite (starts_with_app_avoids p c (String b s) t Ht).
      fold old.
      destruct (starts_with old (String b s)) eqn:Hm.
      * apply starts_with_length in Hm. simpl in Hm.
        rewrite IH by lia. now rewrite append_assoc.
      * rewrite IH by lia. reflexivity.
    + simpl. apply IH. lia.
Qed.

(** A closing fence after a text changes nothing once the fences are
    removed: a run of backquotes keeps its length modulo three. *)
Lemma replace_from_closing_fence s :
  forall n, n <= String.length s ->
    replace_from "```" "" n (s ++ "```") = replace_from "```" "" n s.
Proof.
  induction s as [|c s IH]; intros n Hn.
  - simpl in Hn. assert (n = 0) by lia. subst n. reflexivity.
  - simpl in Hn. destruct n as [|n]; [|simpl; apply IH; lia].
    change (String c s ++ "```") with (String c (s ++ "```")).
    cbn [replace_from].
    change (String c (s ++ "```")) with (String c s ++ "```").
    destruct (starts_with "```" (String c s)) eqn:Hm.
    + rewrite (starts_with_app_r _ _ "```" Hm).
      apply starts_with_length in Hm. simpl in Hm.
      rewrite IH by (simpl; lia). reflexivity.
    + destruct (starts_with "```" (String c s ++ "```")) eqn:Hm'.
      * (* the text is one or two backquotes *)
        cbn [starts_with append] in Hm'. apply andb_true_iff in Hm' as [Hc Hm'].
        apply Ascii.eqb_eq in Hc. subst c.
        destruct s as [|c2 s]; [reflexivity|].
        cbn [starts_with append] in Hm'. apply andb_true_iff in Hm' as [Hc Hm'].
        apply Ascii.eqb_eq in Hc. subst c2.
        destruct s as [|c3 s]; [reflexivity|].
        cbn [starts_with append] in Hm'. apply andb_true_iff in Hm' as [Hc _].
        apply Ascii.eqb_eq in Hc. subst c3.
        simpl in Hm. discriminate Hm.
      * rewrite IH by lia. reflexivity.
Qed.

Lemma all_space_cons c s :
  all_space (String c s) = is_space c && all_space s.
Proof. reflexivity. Qed.

Lemma is_space_not c x :
  is_space x = false -> is_space c = true -> negb (Ascii.eqb c x) = true.
Proof.
  intros Hx Hc. apply negb_true_iff. apply Ascii.eqb_neq.
  intros ->. congruence.
Qed.

Lemma all_space_avoids x s :
  is_space x = false -> all_space s = true -> avoids x s = true.
Proof.
  intros Hx. induction s as [|c s IH]; [reflexivity|].
  rewrite all_space_cons. intros H. apply andb_true_iff in H as [Hc Hs].
  simpl. now rewrite (is_space_not c x Hx Hc), IH.
Qed.

Lemma lstrip_all_space s : all_space s = true -> str_lstrip s = "".
Proof.
  induction s as [|c s IH]; [reflexivity|].
  rewrite all_space_cons. intros H. apply andb_true_iff in H as [Hc Hs].
  simpl. now rewrite Hc, IH.
Qed.

Lemma lstrip_app_space a s :
  all_space a = true -> str_lstrip (a ++ s) = str_lstrip s.
Proof.
  induction a as [|c a IH]; [reflexivity|].
  rewrite all_space_cons. intros H. apply andb_true_iff in H as [Hc Ha].
  simpl. now rewrite Hc, IH.
Qed.

Lemma rstrip_all_space s : all_space s = true -> str_rstrip s = "".
Proof.
  induction s as [|c s IH]; [reflexivity|].
  rewrite all_space_cons. intros H. apply andb_true_iff in H as [Hc Hs].
  simpl. now rewrite (IH Hs), Hc.
Qed.

Lemma rstrip_app_space s b :
  all_space b = true -> str_rstrip (s ++ b) = str_rstrip s.
Proof.
  intros Hb. induction s as [|c s IH]; simpl.
  - now apply rstrip_all_space.
  - now rewrite IH.
Qed.

(** Whitespace around a text does not survive [strip]. *)
Lemma strip_padding a s b :
  all_space a = true -> all_space b = true ->
  str_strip (a ++ s ++ b) = str_strip s.
Proof.
  intros Ha Hb. unfold str_strip. rewrite (lstrip_app_space a _ Ha).
  induction s as [|c s IH]; simpl.
  - now rewrite (lstrip_all_space b Hb).
  - destruct (is_space c); [exact IH|].
    exact (rstrip_app_space (String c s) b Hb).
Qed.

Lemma all_space_app a b :
  all_space (a ++ b) = all_space a && all_space b.
Proof.
  induction a as [|c a IH]; [reflexivity|].
  now rewrite all_space_cons, <- andb_assoc, <- IH.
Qed.

(** The text of a response inside a [json] fence, with optional
    whitespace around the fences and between the fences and the text, is
    cleaned to what the bare text is cleaned to. *)
Lemma strip_fences_wrapped a0 a s b b0 :
  all_space a0 = true -> all_space a = true ->
  all_space b = true -> all_space b0 = true ->
  strip_fences (a0 ++ ("```json" ++ a ++ s ++ b ++ "```") ++ b0)
  = strip_fences s.
Proof.
  intros Ha0 Ha Hb Hb0. unfold strip_fences, str_replace.
  assert (Hopen : forall rest,
             replace_from "```json" "" 0 ("```json" ++ rest)
             = replace_from "```json" "" 0 rest) by reflexivity.
  assert (Hq : avoids "`" a0 = true /\ avoids "`" a = true
               /\ avoids "`" b = true /\ avoids "`" b0 = true
               /\ avoids "n" (b ++ "```" ++ b0) = true).
  { rewrite !avoids_app.
    rewrite !(all_space_avoids "`") by easy.
    rewrite (all_space_avoids "n" b), (all_space_avoids "n" b0) by easy.
    now repeat split. }
  destruct Hq as (Hqa0 & Hqa & Hqb & Hqb0 & Hnb).
  rewrite (replace_from_head "`" "``json" "" a0 _ Hqa0).
  rewrite !append_assoc, Hopen.
  rewrite (replace_from_head "`" "``json" "" a _ Hqa).
  pose proof (replace_from_tail "```jso" "n" "" _ Hnb s 0 (Nat.le_0_l _))
    as Hjson.
  change ("```jso" ++ "n") with "```json" in Hjson. rewrite Hjson.
  set (k := replace_from "```json" "" 0 s).
  rewrite (replace_from_head "`" "``" "" a0 _ Hqa0).
  rewrite (replace_from_head "`" "``" "" a _ Hqa).
  rewrite <- (append_assoc b "```" b0), <- (append_assoc k (b ++ "```") b0).
  pose proof (replace_from_tail "``" "`" "" _ Hqb0 (k ++ b ++ "```") 0
                (Nat.le_0_l _)) as Hpad.
  change ("``" ++ "`") with "```" in Hpad. rewrite Hpad.
  rewrite <- (append_assoc k b "```").
  rewrite replace_from_closing_fence by lia.
  pose proof (replace_from_tail "``" "`" "" _ Hqb k 0 (Nat.le_0_l _))
    as Hfence.
  change ("``" ++ "`") with "```" in Hfence. rewrite Hfence.
  rewrite <- (append_assoc a0 a), !append_assoc.
  rewrite <- (append_assoc a0 a).
  apply strip_padding; rewrite all_space_app; now apply andb_true_iff.
Qed.

Lemma starts_with_cons a p b s :
  starts_with (String a p) (String b s) = Ascii.eqb a b && starts_with p s.
Proof. reflexivity. Qed.

Lemma starts_with_first_avoids a p s :
  avoids a s = true -> starts_with (String a p) s = false.
Proof.
  destruct s as [|b s]; [reflexivity|]. simpl.
  intros H. apply andb_true_iff in H as [H _].
  apply negb_true_iff in H. rewrite Ascii.eqb_sym in H. now rewrite H.
Qed.

Lemma replace_from_absent a old' new s :
  avoids a s = true -> replace_from (String a old') new 0 s = s.
Proof.
  intros H. rewrite <- (append_empty_r s) at 1.
  rewrite (replace_from_head a old' new s "" H). apply append_empty_r.
Qed.

(** A fence marker is removed wherever it stands in the text. *)
Lemma strip_fences_json_marker pre post :
  avoids "`" pre = true -> avoids "`" post = true ->
  strip_fences (pre ++ "```json" ++ post) = str_strip (pre ++ post).
Proof.
  intros Hpre Hpost. unfold strip_fences, str_replace.
  rewrite (replace_from_head "`" "``json" "" pre _ Hpre).
  change (replace_from "```json" "" 0 ("```json" ++ post))
    with (replace_from "```json" "" 0 post).
  rewrite (replace_from_absent "`" "``json" "" post Hpost).
  rewrite (replace_from_absent "`" "``" "" (pre ++ post)); [reflexivity|].
  now rewrite avoids_app, Hpre, Hpost.
Qed.

Lemma strip_fences_plain_marker pre post :
  avoids "`" pre = true -> avoids "`" post = true ->
  starts_with "json" post = false ->
  strip_fences (pre ++ "```" ++ post) = str_strip (pre ++ post).
Proof.
  intros Hpre Hpost Hjson. unfold strip_fences, str_replace.
  rewrite (replace_from_head "`" "``json" "" pre _ Hpre).
  assert (Hkeep : replace_from "```json" "" 0 ("```" ++ post) = "```" ++ post).
  { change ("```" ++ post) with (String "`" (String "`" (String "`" post))).
    cbn [replace_from].
    assert (H3 : starts_with "```json"
                   (String "`" (String "`" (String "`" post))) = false)
      by (rewrite !starts_with_cons, Hjson; reflexivity).
    assert (H2 : starts_with "```json" (String "`" (String "`" post)) = false)
      by (rewrite !starts_with_cons,
            (starts_with_first_avoids "`" "json" post Hpost);
          reflexivity).
    assert (H1 : starts_with "```json" (String "`" post) = false)
      by (rewrite starts_with_cons,
            (starts_with_first_avoids "`" "`json" post Hpost);
          reflexivity).
    rewrite H3, H2, H1.
    now rewrite (replace_from_absent "`" "``json" "" post Hpost). }
  rewrite Hkeep.
  rewrite (replace_from_head "`" "``" "" pre _ Hpre).
  change (replace_from "```" "" 0 ("```" ++ post))
    with (replace_from "```" "" 0 post).
  now rewrite (replace_from_absent "`" "``" "" post Hpost).
Qed.

(* ================================================================= *)
(** ** The stages that call the chat service *)

Section Stages.
Context `{Runtime}.

Lemma get_relevant_files_run client file_names prompt w :
  get_relevant_files client file_names prompt w
  = let req := files_request file_names prompt in
    let out := ((stdout w ++ ["---- get_relevant_files Prompt ----"])
                  ++ [snd req])%list in
    let reqs := (requests w ++ [req])%list in
    match client (requests w) req with
    | Ok text =>
        (parse_selection "relevant_files" text,
         {| stdout := ((out ++ ["---- get_relevant_files Response ----"])
                         ++ [strip_fences text])%list;
            requests := reqs |})
    | Raise e => (Raise e, {| stdout := out; requests := reqs |})
    end.
Proof.
  unfold get_relevant_files, files_request, parse_selection, bind, print,
    chat_completions_create, lift.
  cbn [stdout requests snd].
  destruct (client (requests w) _) as [text|e]; [|reflexivity].
  cbn [stdout requests].
  destruct (json_load (strip_fences text)); reflexivity.
Qed.

Lemma pick_relevant_tables_run client tables prompt w :
  pick_relevant_tables client tables prompt w
  = let req := tables_request tables prompt in
    let out := (stdout w ++ [snd req])%list in
    let reqs := (requests w ++ [req])%list in
    match client (requests w) req with
    | Ok text =>
        (parse_selection "relevant_tables" text,
         {| stdout := ((out ++ ["---- pick_relevant_tables Response ----"])
                         ++ [strip_fences text])%list;
            requests := reqs |})
    | Raise e => (Raise e, {| stdout := out; requests := reqs |})
    end.
Proof.
  unfold pick_relevant_tables, tables_request, parse_selection, bind, print,
    chat_completions_create, lift.
  cbn [stdout requests snd].
  destruct (client (requests w) _) as [text|e]; [|reflexivity].
  cbn [stdout requests].
  destruct (json_load (strip_fences text)); reflexivity.
Qed.

Lemma generate_sql_run client relevant_tables prompt columns w :
  generate_sql client relevant_tables prompt columns w
  = let req := sql_request relevant_tables prompt columns in
    (client (requests w) req,
     {| stdout := ((stdout w ++ ["---- generate_sql Prompt ----"])
                     ++ [snd req])%list;
        requests := (requests w ++ [req])%list |}).
Proof. reflexivity. Qed.

End Stages.

(* ================================================================= *)
(** ** Loops and dicts *)

Lemma for_each_app {A S} (xs ys : list A) (body : S -> A -> result S) acc :
  for_each (xs ++ ys) body acc
  = rbind (for_each xs body acc) (for_each ys body).
Proof.
  revert acc; induction xs as [|x xs IH]; intros acc; simpl; [reflexivity|].
  destruct (body acc x); simpl; [apply IH | reflexivity].
Qed.

(** A loop whose body appends to a list the entries [emit x]. *)
Lemma for_each_emit {A B} (xs : list A) (body : list B -> A -> result (list B))
  (emit : A -> list B) :
  (forall acc x, In x xs -> body acc x = Ok (acc ++ emit x)%list) ->
  forall acc, for_each xs body acc = Ok (acc ++ flat_map emit xs)%list.
Proof.
  induction xs as [|x xs IH]; intros Hbody acc; simpl.
  - now rewrite app_nil_r.
  - rewrite Hbody by now left. simpl.
    rewrite IH by (intros; apply Hbody; now right).
    now rewrite app_assoc.
Qed.

Lemma dict_lookup_set d k v k' :
  dict_lookup k' (dict_set d k v)
  = if String.eqb k k' then Some v else dict_lookup k' d.
Proof.
  induction d as [|[k0 v0] d IH]; simpl.
  - reflexivity.
  - destruct (String.eqb k0 k) eqn:E0; simpl.
    + apply String.eqb_eq in E0. subst k0.
      destruct (String.eqb k k'); reflexivity.
    + rewrite IH. destruct (String.eqb k0 k') eqn:E1; [|reflexivity].
      apply String.eqb_eq in E1. subst k0.
      now rewrite String.eqb_sym, E0.
Qed.

Lemma dict_lookup_in k d v : dict_lookup k d = Some v -> In (k, v) d.
Proof.
  induction d as [|[k0 v0] d IH]; simpl; [discriminate|].
  destruct (String.eqb k0 k) eqn:E.
  - apply String.eqb_eq in E. intros [= ->]. left. now subst.
  - intros Hl. right. now apply IH.
Qed.

Lemma corpus_value_lookup c f :
  dict_lookup f (corpus_value c)
  = option_map (fun ts => PyList (map descriptor_value ts)) (corpus_lookup f c).
Proof.
  induction c as [|[f0 ts] c IH]; simpl; [reflexivity|].
  destruct (String.eqb f0 f); [reflexivity | exact IH].
Qed.

(* ================================================================= *)
(** ** Substrings *)

Lemma starts_with_spec p s :
  starts_with p s = true <-> exists post, s = p ++ post.
Proof.
  split.
  - revert s; induction p as [|a p IH]; intros s Hs.
    + now exists s.
    + destruct s as [|b s]; [discriminate|]. simpl in Hs.
      apply andb_true_iff in Hs as [Hab Hs]. apply Ascii.eqb_eq in Hab.
      destruct (IH s Hs) as [post ->]. subst b. now exists post.
  - intros [post ->]. induction p as [|a p IH]; simpl; [reflexivity|].
    now rewrite Ascii.eqb_refl, IH.
Qed.

Lemma str_contains_spec needle hay :
  str_contains needle hay = true
  <-> exists pre post, hay = pre ++ needle ++ post.
Proof.
  split.
  - induction hay as [|c hay IH]; simpl; intros Hc.
    + rewrite orb_false_r in Hc. apply starts_with_spec in Hc as [post Hp].
      now exists "", post.
    + apply orb_true_iff in Hc as [Hc|Hc].
      * apply starts_with_spec in Hc as [post Hp]. now exists "", post.
      * destruct (IH Hc) as (pre & post & ->). now exists (String c pre), post.
  - intros (pre & post & ->). induction pre as [|c pre IH].
    + simpl append. destruct (needle ++ post) eqn:E; simpl;
        rewrite <- ?E;
        replace (starts_with needle _) with true; try reflexivity;
        symmetry; apply starts_with_spec; exists post; now rewrite ?E.
    + simpl. rewrite IH. apply orb_true_r.
Qed.

(** *** What is left of the fences *)

Lemma run_length_two s :
  starts_with "``" s = true <-> 2 <= run_length "`" s.
Proof.
  destruct s as [|a s]; [simpl; split; [discriminate | lia]|].
  rewrite starts_with_cons, (Ascii.eqb_sym "`" a). simpl run_length.
  destruct (Ascii.eqb a "`"); [|simpl; split; [discriminate | lia]].
  destruct s as [|b s]; [simpl; split; [discriminate | lia]|].
  rewrite starts_with_cons, (Ascii.eqb_sym "`" b). simpl run_length.
  destruct (Ascii.eqb b "`"); simpl; split;
    try discriminate; try lia; reflexivity.
Qed.

Lemma replace_fence_step c s :
  replace_from "```" "" 0 (String c s)
  = if starts_with "```" (String c s)
    then replace_from "```" "" 0 (str_drop 2 s)
    else String c (replace_from "```" "" 0 s).
Proof.
  cbn [replace_from].
  destruct (starts_with "```" (String c s)) eqn:E; [|reflexivity].
  apply starts_with_spec in E as [post E].
  injection E as -> ->. reflexivity.
Qed.

Lemma str_drop_length n s : String.length (str_drop n s) <= String.length s.
Proof.
  revert s; induction n as [|n IH]; intros [|c s]; simpl; try lia.
  specialize (IH s). lia.
Qed.

(** After the replacement no run of backquotes is longer than before, and
    no fence is left. *)
Lemma replace_fence_clean n :
  forall s, String.length s <= n ->
    run_length "`" (replace_from "```" "" 0 s) <= run_length "`" s
    /\ str_contains "```" (replace_from "```" "" 0 s) = false.
Proof.
  induction n as [|n IH]; intros [|c s] Hn; simpl in Hn; try lia;
    try (split; reflexivity).
  rewrite replace_fence_step.
  destruct (starts_with "```" (String c s)) eqn:E.
  - pose proof (str_drop_length 2 s) as Hd.
    destruct (IH (str_drop 2 s)) as [Hrun Hclean]; [lia|].
    split; [|exact Hclean].
    apply starts_with_spec in E as [post E]. injection E as -> ->.
    simpl str_drop in Hrun. simpl run_length. lia.
  - destruct (IH s) as [Hrun Hclean]; [lia|]. split.
    + simpl. destruct (Ascii.eqb c "`"); lia.
    + cbn [str_contains]. rewrite Hclean, orb_false_r.
      destruct (starts_with "```" (String c (replace_from "```" "" 0 s)))
        eqn:E'; [|reflexivity].
      rewrite starts_with_cons in E'. apply andb_true_iff in E' as [Hc E'].
      apply run_length_two in E'.
      assert (E2 : starts_with "``" s = true) by (apply run_length_two; lia).
      rewrite starts_with_cons, Hc, E2 in E. discriminate E.
Qed.

Lemma lstrip_suffix s : exists a, s = a ++ str_lstrip s.
Proof.
  induction s as [|c s [a IH]]; [now exists ""|]. simpl.
  destruct (is_space c); [|now exists ""].
  exists (String c a). simpl. now rewrite <- IH.
Qed.

Lemma rstrip_prefix s : exists b, s = str_rstrip s ++ b.
Proof.
  induction s as [|c s [b IH]]; [now exists ""|]. simpl.
  destruct (str_rstrip s) as [|r rs] eqn:E.
  - destruct (is_space c).
    + exists (String c s). reflexivity.
    + exists b. simpl. now rewrite IH at 1.
  - exists b. simpl. now rewrite IH at 1.
Qed.

(** The stripped text is a part of the text. *)
Lemma strip_inside s : exists a b, s = a ++ str_strip s ++ b.
Proof.
  unfold str_strip. destruct (lstrip_suffix s) as [a Ha].
  destruct (rstrip_prefix (str_lstrip s)) as [b Hb].
  exists a, b. now rewrite <- Hb.
Qed.

Lemma str_contains_inside needle a s b :
  str_contains needle s = true -> str_contains needle (a ++ s ++ b) = true.
Proof.
  intros H. apply str_contains_spec in H as (pre & post & ->).
  apply str_contains_spec. exists (a ++ pre), (post ++ b).
  now rewrite !append_assoc.
Qed.

(** No fence is left in the cleaned text of a response. *)
Lemma strip_fences_clean s : str_contains "```" (strip_fences s) = false.
Proof.
  unfold strip_fences, str_replace.
  set (t := replace_from "```" "" 0 _).
  destruct (str_contains "```" (str_strip t)) eqn:E; [|reflexivity].
  destruct (strip_inside t) as (a & b & Ht).
  apply (str_contains_inside _ a _ b) in E. rewrite <- Ht in E.
  unfold t in E.
  now rewrite (proj2 (replace_fence_clean _ _ (Nat.le_refl _))) in E.
Qed.

(* ================================================================= *)
(** ** Table extractor and info gatherer on a corpus of the data model *)

Section Typed.
Context `{Runtime}.

Lemma py_in_corpus c f :
  py_in_dict (PyStr f) (corpus_value c)
  = Ok (match corpus_lookup f c with Some _ => true | None => false end).
Proof.
  unfold py_in_dict, dict_mem. rewrite corpus_value_lookup.
  now destruct (corpus_lookup f c).
Qed.

Lemma extract_rows ts acc :
  for_each (map descriptor_value ts)
    (fun table_names table =>
       n <- py_getitem_str table "table_name" ;;
       d <- py_getitem_str table "table_description" ;;
       let combined_str := py_str n ++ " : " ++ py_str d in
       Ok (table_names ++ [combined_str])%list)
    acc
  = Ok (acc ++ map table_string ts)%list.
Proof.
  revert acc; induction ts as [|t ts IH]; intros acc; simpl.
  - now rewrite app_nil_r.
  - rewrite IH. now rewrite <- app_assoc.
Qed.

Lemma get_tables_from_files_typed c fns :
  get_tables_from_files (str_list fns) (corpus_value c)
  = Ok (flat_map (file_strings c) fns).
Proof.
  unfold get_tables_from_files, str_list. cbn [py_iter rbind].
  rewrite (for_each_emit (map PyStr fns) _
             (fun v => match v with
                       | PyStr f => file_strings c f
                       | _ => []
                       end)).
  - simpl. f_equal. induction fns as [|f fns IH]; simpl; [reflexivity|].
    now rewrite IH.
  - intros acc x Hx. apply in_map_iff in Hx as (f & <- & _).
    rewrite py_in_corpus. cbn [rbind].
    unfold file_strings, tables_of_file, py_dict_getitem.
    rewrite corpus_value_lookup.
    destruct (corpus_lookup f c) as [ts|]; simpl.
    + apply extract_rows.
    + now rewrite app_nil_r.
Qed.

Lemma any_contains name rts :
  py_any (fun rt => py_contains rt (PyStr name)) (map PyStr rts)
  = Ok (existsb (str_contains name) rts).
Proof.
  induction rts as [|rt rts IH]; simpl; [reflexivity|].
  destruct (str_contains name rt); simpl; [reflexivity | exact IH].
Qed.

Lemma gather_rows rts ts acc :
  for_each (map descriptor_value ts)
    (fun table_info table =>
       table_name <- py_getitem_str table "table_name" ;;
       rs <- py_iter (str_list rts) ;;
       hit <- py_any (fun rt => py_contains rt table_name) rs ;;
       if hit : bool
       then
         d <- py_getitem_str table "table_description" ;;
         c <- py_getitem_str table "columns" ;;
         Ok (table_info ++
             [PyDict [("table_name", table_name);
                      ("table_description", d);
                      ("columns", c)]])%list
       else Ok table_info)
    acc
  = Ok (acc ++ map descriptor_value (filter (name_matches rts) ts))%list.
Proof.
  revert acc; induction ts as [|t ts IH]; intros acc.
  - simpl. now rewrite app_nil_r.
  - cbn [map for_each].
    change (py_getitem_str (descriptor_value t) "table_name")
      with (Ok (PyStr (td_name t))).
    cbn [rbind str_list py_iter]. rewrite any_contains. cbn [rbind filter].
    change (existsb (str_contains (td_name t)) rts)
      with (name_matches rts t).
    destruct (name_matches rts t).
    + change (py_getitem_str (descriptor_value t) "table_description")
        with (Ok (PyStr (td_description t))).
      change (py_getitem_str (descriptor_value t) "columns")
        with (Ok (PyList (td_columns t))).
      cbn [rbind]. rewrite IH. cbn [map]. now rewrite <- app_assoc.
    + apply IH.
Qed.

Lemma grab_table_info_typed c rts fns :
  grab_table_info (str_list rts) (str_list fns) (corpus_value c)
  = Ok (map descriptor_value (flat_map (file_matches c rts) fns)).
Proof.
  unfold grab_table_info. unfold str_list at 1. cbn [py_iter rbind].
  rewrite (for_each_emit (map PyStr fns) _
             (fun v => match v with
                       | PyStr f => map descriptor_value (file_matches c rts f)
                       | _ => []
                       end)).
  - simpl. f_equal. induction fns as [|f fns IH]; simpl; [reflexivity|].
    now rewrite map_app, IH.
  - intros acc x Hx. apply in_map_iff in Hx as (f & <- & _).
    rewrite py_in_corpus. cbn [rbind].
    unfold file_matches, tables_of_file, py_dict_getitem.
    rewrite corpus_value_lookup.
    destruct (corpus_lookup f c) as [ts|]; simpl option_map; cbn iota.
    + cbn [rbind py_iter]. apply gather_rows.
    + simpl. now rewrite app_nil_r.
Qed.

End Typed.

(* ================================================================= *)
(** ** Corpus loader *)

Section Loader.
Context `{Runtime}.

Lemma load_step_spec tables table :
  load_step tables table
  = if element_ok table
    then Ok (tables ++ element_tables table)%list
    else Raise TypeError.
Proof.
  unfold load_step.
  destruct table as [| b | z | f | s | l | d]; try reflexivity.
  - cbn [py_contains element_ok element_tables rbind].
    destruct (str_contains "table_name" s); simpl;
      [reflexivity | now rewrite app_nil_r].
  - cbn [py_contains element_ok element_tables rbind].
    destruct (existsb (py_eq (PyStr "table_name")) l); simpl;
      [reflexivity | now rewrite app_nil_r].
  - cbn [py_contains py_in_dict element_ok element_tables rbind].
    unfold dict_mem, table_info_of, built_descriptor, dict_get_default.
    cbn [py_getitem_str py_dict_getitem py_get].
    destruct (dict_lookup "table_name" d) as [n|]; cbn [rbind].
    + destruct (dict_lookup "table_description" d);
        destruct (dict_lookup "columns" d); reflexivity.
    + now rewrite app_nil_r.
Qed.

Lemma load_rows l :
  forall acc,
    for_each l load_step acc
    = if forallb element_ok l
      then Ok (acc ++ flat_map element_tables l)%list
      else Raise TypeError.
Proof.
  induction l as [|x l IH]; intros acc; simpl.
  - now rewrite app_nil_r.
  - rewrite load_step_spec. destruct (element_ok x); simpl; [|reflexivity].
    rewrite IH. destruct (forallb element_ok l); [|reflexivity].
    now rewrite app_assoc.
Qed.

Lemma load_tables_list l :
  load_tables (PyList l)
  = if forallb element_ok l then Ok (built_descriptors l)
    else Raise TypeError.
Proof. exact (load_rows l []). Qed.

Lemma load_tables_other v :
  (forall l, v <> PyList l) -> load_tables v = Ok [].
Proof. destruct v; try reflexivity. intros Hl. now destruct (Hl l). Qed.

Lemma built_descriptors_in l v :
  In v (built_descriptors l)
  <-> exists d, In (PyDict d) l /\ dict_mem "table_name" d = true
                /\ v = built_descriptor d.
Proof.
  unfold built_descriptors. rewrite in_flat_map. split.
  - intros (x & Hx & Hv). destruct x; try easy. simpl in Hv.
    destruct (dict_mem "table_name" d) eqn:E; [|easy].
    destruct Hv as [<-|[]]. now exists d.
  - intros (d & Hd & E & ->). exists (PyDict d). split; [exact Hd|].
    simpl. rewrite E. now left.
Qed.

Lemma built_descriptors_fields l :
  Forall has_three_fields (built_descriptors l).
Proof.
  apply Forall_forall. intros v Hv.
  apply built_descriptors_in in Hv as (d & _ & _ & ->).
  unfold has_three_fields, built_descriptor. eauto.
Qed.

Lemma load_tables_fields v ts :
  load_tables v = Ok ts -> Forall has_three_fields ts.
Proof.
  destruct v as [| b | z | f | s | l | d];
    try (intros [= <-]; constructor).
  rewrite load_tables_list. destruct (forallb element_ok l); [|discriminate].
  intros [= <-]. apply built_descriptors_fields.
Qed.

Lemma dict_set_well_formed d k ts :
  well_formed_data d -> Forall has_three_fields ts ->
  well_formed_data (dict_set d k (PyList ts)).
Proof.
  unfold well_formed_data. intros Hd Hts.
  induction d as [|[k0 v0] d IH]; simpl.
  - constructor; [|constructor]. now exists ts.
  - inversion Hd as [|? ? H0 Hd']; subst.
    destruct (String.eqb k0 k).
    + constructor; [|exact Hd']. now exists ts.
    + constructor; [exact H0 | now apply IH].
Qed.

Lemma load_file_well_formed file_structure json_file d :
  well_formed_data file_structure ->
  load_file file_structure json_file = Ok d -> well_formed_data d.
Proof.
  intros Hwf. unfold load_file.
  destruct (open_read json_file) as [text|]; [|discriminate]. cbn [rbind].
  destruct (json_load text) as [data|]; [|discriminate]. cbn [rbind].
  destruct (load_tables data) as [ts|] eqn:E; [|discriminate]. cbn [rbind].
  intros [= <-]. apply dict_set_well_formed; [exact Hwf|].
  exact (load_tables_fields _ _ E).
Qed.

Lemma loaded_well_formed json_files :
  forall file_structure d,
    well_formed_data file_structure ->
    for_each json_files load_file file_structure = Ok d ->
    well_formed_data d.
Proof.
  induction json_files as [|p ps IH]; intros fs d Hwf; simpl.
  - now intros [= <-].
  - destruct (load_file fs p) as [fs'|] eqn:E; [|discriminate]. simpl.
    apply IH. exact (load_file_well_formed _ _ _ Hwf E).
Qed.

Lemma get_table_clusters_well_formed folder_path data :
  get_table_clusters folder_path = Ok data -> well_formed_data data.
Proof. apply loaded_well_formed. constructor. Qed.

End Loader.

(* ================================================================= *)
(** ** No missing key on loaded data *)

Lemma only_type_error_no_key {A} (r : result A) key :
  only_type_error r -> r <> Raise (KeyError key).
Proof. destruct r; simpl; [discriminate | intros -> ; discriminate]. Qed.

Lemma rbind_only {A B} (m : result A) (k : A -> result B) :
  only_type_error m ->
  (forall a, m = Ok a -> only_type_error (k a)) ->
  only_type_error (rbind m k).
Proof. destruct m; simpl; [intros _ Hk; now apply Hk | now intros]. Qed.

Lemma for_each_only {A S} (xs : list A) (body : S -> A -> result S) :
  (forall acc x, In x xs -> only_type_error (body acc x)) ->
  forall acc, only_type_error (for_each xs body acc).
Proof.
  induction xs as [|x xs IH]; intros Hbody acc; simpl; [exact I|].
  apply rbind_only; [apply Hbody; now left|].
  intros acc' _. apply IH. intros; apply Hbody; now right.
Qed.

Lemma py_iter_only v : only_type_error (py_iter v).
Proof. destruct v; simpl; auto. Qed.

Lemma py_in_dict_only k d : only_type_error (py_in_dict k d).
Proof. destruct k; simpl; auto. Qed.

Lemma py_any_only {A} (p : A -> result bool) xs :
  (forall x, only_type_error (p x)) -> only_type_error (py_any p xs).
Proof.
  intros Hp. induction xs as [|x xs IH]; simpl; [exact I|].
  apply rbind_only; [apply Hp|]. intros [] _; [exact I | exact IH].
Qed.

Section Consumers.
Context `{Runtime}.

Lemma py_contains_only c x : only_type_error (py_contains c x).
Proof.
  destruct c; simpl; auto using py_in_dict_only. destruct x; simpl; auto.
Qed.

(** A file the dict has maps to a list of complete descriptors. *)
Lemma present_file_rows data k :
  well_formed_data data ->
  py_in_dict k data = Ok true ->
  exists ts, py_dict_getitem data k = Ok (PyList ts)
             /\ Forall has_three_fields ts.
Proof.
  intros Hwf. destruct k; try discriminate. simpl. unfold dict_mem.
  destruct (dict_lookup s data) as [v|] eqn:E; [|discriminate].
  intros _. apply dict_lookup_in in E.
  unfold well_formed_data in Hwf. rewrite Forall_forall in Hwf.
  destruct (Hwf _ E) as (ts & Hv & Hts). simpl in Hv. subst v.
  now exists ts.
Qed.

Lemma get_tables_from_files_only file_names data :
  well_formed_data data ->
  only_type_error (get_tables_from_files file_names data).
Proof.
  intros Hwf. unfold get_tables_from_files.
  apply rbind_only; [apply py_iter_only|]. intros fns _.
  apply for_each_only. intros acc file_name _.
  apply rbind_only; [apply py_in_dict_only|]. intros [] Hp; [|exact I].
  destruct (present_file_rows _ _ Hwf Hp) as (ts & -> & Hts).
  cbn [rbind py_iter]. apply for_each_only. intros acc' t Ht.
  rewrite Forall_forall in Hts. destruct (Hts _ Ht) as (n & d & c & ->).
  exact I.
Qed.

Lemma grab_table_info_only relevant_tables file_names data :
  well_formed_data data ->
  only_type_error (grab_table_info relevant_tables file_names data).
Proof.
  intros Hwf. unfold grab_table_info.
  apply rbind_only; [apply py_iter_only|]. intros fns _.
  apply for_each_only. intros acc file_name _.
  apply rbind_only; [apply py_in_dict_only|]. intros [] Hp; [|exact I].
  destruct (present_file_rows _ _ Hwf Hp) as (ts & -> & Hts).
  cbn [rbind py_iter]. apply for_each_only. intros acc' t Ht.
  rewrite Forall_forall in Hts. destruct (Hts _ Ht) as (n & d & c & ->).
  change (py_getitem_str (PyDict _) "table_name") with (Ok n).
  cbn [rbind].
  apply rbind_only; [apply py_iter_only|]. intros rts _.
  apply rbind_only; [apply py_any_only; intros; apply py_contains_only|].
  intros [] _; exact I.
Qed.

End Consumers.

(* ================================================================= *)
(** ** Counting entries *)

Lemma count_if_app {A} (p : A -> bool) l1 l2 :
  count_if p (l1 ++ l2) = count_if p l1 + count_if p l2.
Proof. unfold count_if. now rewrite filter_app, length_app. Qed.

(** Every occurrence of [f] in the selection contributes its block
    again. *)
Lemma count_if_flat_map {B} (p : B -> bool) (block : string -> list B) f fns :
  count_if p (flat_map block fns)
  = count_occ string_dec fns f * count_if p (block f)
    + count_if p (flat_map block (remove string_dec f fns)).
Proof.
  induction fns as [|g fns IH]; simpl; [reflexivity|].
  rewrite count_if_app, IH.
  destruct (string_dec g f) as [Hg|Hg], (string_dec f g) as [E|E];
    try congruence; simpl.
  - subst g. lia.
  - rewrite count_if_app. lia.
Qed.

Lemma flat_map_repeat {B} (block : string -> list B) f n :
  flat_map block (repeat f n) = concat (repeat (block f) n).
Proof. induction n as [|n IH]; simpl; [reflexivity | now rewrite IH]. Qed.

Lemma map_flat_map {A B C} (g : B -> C) (f : A -> list B) l :
  map g (flat_map f l) = flat_map (fun x => map g (f x)) l.
Proof.
  induction l as [|x l IH]; simpl; [reflexivity | now rewrite map_app, IH].
Qed.

Lemma dict_set_shape file_structure json_file `{Runtime} d :
  load_file file_structure json_file = Ok d ->
  exists ts, d = dict_set file_structure (basename json_file) (PyList ts).
Proof.
  unfold load_file.
  destruct (open_read json_file) as [text|]; [|discriminate]. cbn [rbind].
  destruct (json_load text) as [data|]; [|discriminate]. cbn [rbind].
  destruct (load_tables data) as [ts|]; [|discriminate]. cbn [rbind].
  intros [= <-]. now exists ts.
Qed.

(** Later files with other names leave the entry of a file as it is. *)
Lemma later_files_keep `{Runtime} k json_files :
  ~ In k (map basename json_files) ->
  forall file_structure d,
    for_each json_files load_file file_structure = Ok d ->
    dict_lookup k d = dict_lookup k file_structure.
Proof.
  induction json_files as [|p ps IH]; intros Hk fs d; simpl.
  - now intros [= <-].
  - destruct (load_file fs p) as [fs'|] eqn:E; [|discriminate]. simpl.
    intros Hd. rewrite (IH (fun Hin => Hk (or_intror Hin)) _ _ Hd).
    destruct (dict_set_shape _ _ _ E) as (ts & ->).
    rewrite dict_lookup_set.
    destruct (String.eqb (basename p) k) eqn:Ek; [|reflexivity].
    apply String.eqb_eq in Ek. destruct Hk. now left.
Qed.

Section Orchestrator.
Context `{Runtime}.

(** A successful run went through every stage, and its bundle holds
    what each stage returned. *)
Lemma run_full_process_ok api_key user_prompt w b w' :
  run_full_process api_key user_prompt w = (Ok b, w') ->
  exists w1 w2,
    let client := create_openai_client api_key in
    get_table_clusters default_folder_path = Ok (all_data b)
    /\ file_names b = dict_keys (all_data b)
    /\ get_relevant_files client (file_names b) user_prompt w
       = (Ok (relevant_files b), w1)
    /\ get_tables_from_files (relevant_files b) (all_data b)
       = Ok (tables b)
    /\ pick_relevant_tables client (tables b) user_prompt w1
       = (Ok (relevant_tables b), w2)
    /\ grab_table_info (relevant_tables b) (relevant_files b) (all_data b)
       = Ok (columns_info b)
    /\ generate_sql client (relevant_tables b) user_prompt (columns_info b)
         w2
       = (Ok (final_sql_query b), w').
Proof.
  unfold run_full_process, bind, lift, ret.
  destruct (get_table_clusters default_folder_path) as [data|]; [|discriminate].
  destruct (get_relevant_files _ _ _ w) as [[rf|] w1] eqn:E1; [|discriminate].
  destruct (get_tables_from_files rf data) as [strs|] eqn:E2; [|discriminate].
  destruct (pick_relevant_tables _ _ _ w1) as [[rt|] w2] eqn:E3;
    [|discriminate].
  destruct (grab_table_info rt rf data) as [info|] eqn:E4; [|discriminate].
  destruct (generate_sql _ _ _ _ w2) as [[sql|] w3] eqn:E5; [|discriminate].
  intros [= <- <-]. exists w1, w2. cbn. repeat split; assumption.
Qed.

(** Conversely, stages that succeed one after the other make the run
    succeed with their results. *)
Lemma run_full_process_stages api_key user_prompt w data rf w1 strs rt w2
      info sql w3 :
  let client := create_openai_client api_key in
  get_table_clusters default_folder_path = Ok data ->
  get_relevant_files client (dict_keys data) user_prompt w = (Ok rf, w1) ->
  get_tables_from_files rf data = Ok strs ->
  pick_relevant_tables client strs user_prompt w1 = (Ok rt, w2) ->
  grab_table_info rt rf data = Ok info ->
  generate_sql client rt user_prompt info w2 = (Ok sql, w3) ->
  run_full_process api_key user_prompt w
  = (Ok {| all_data := data;
           file_names := dict_keys data;
           relevant_files := rf;
           tables := strs;
           relevant_tables := rt;
           columns_info := info;
           final_sql_query := sql |}, w3).
Proof.
  intros client E0 E1 E2 E3 E4 E5.
  unfold run_full_process, bind, lift, ret. fold client.
  now rewrite E0, E1, E2, E3, E4, E5.
Qed.

Lemma run_full_process_files_error api_key user_prompt w data e w1 :
  get_table_clusters default_folder_path = Ok data ->
  get_relevant_files (create_openai_client api_key) (dict_keys data)
    user_prompt w = (Raise e, w1) ->
  run_full_process api_key user_prompt w = (Raise e, w1).
Proof.
  intros E0 E1. unfold run_full_process, bind, lift.
  now rewrite E0, E1.
Qed.

Lemma run_full_process_tables_error api_key user_prompt w data rf w1 strs
      e w2 :
  get_table_clusters default_folder_path = Ok data ->
  get_relevant_files (create_openai_client api_key) (dict_keys data)
    user_prompt w = (Ok rf, w1) ->
  get_tables_from_files rf data = Ok strs ->
  pick_relevant_tables (create_openai_client api_key) strs user_prompt w1
  = (Raise e, w2) ->
  run_full_process api_key user_prompt w = (Raise e, w2).
Proof.
  intros E0 E1 E2 E3. unfold run_full_process, bind, lift.
  now rewrite E0, E1, E2, E3.
Qed.

Lemma parse_selection_invalid key text :
  json_loads (strip_fences text) = None ->
  parse_selection key text = Raise JSONDecodeError.
Proof. unfold parse_selection, json_load. now intros ->. Qed.

Lemma parse_selection_no_key key text d :
  json_loads (strip_fences text) = Some (PyDict d) ->
  dict_lookup key d = None ->
  parse_selection key text = Raise (KeyError (PyStr key)).
Proof.
  unfold parse_selection, json_load. intros -> Hk. simpl. now rewrite Hk.
Qed.

Lemma parse_selection_not_object key text v :
  json_loads (strip_fences text) = Some v ->
  (forall d, v <> PyDict d) ->
  parse_selection key text = Raise TypeError.
Proof.
  unfold parse_selection, json_load. intros -> Hv. simpl.
  destruct v; try reflexivity. now destruct (Hv d).
Qed.

End Orchestrator.

(* ================================================================= *)
(** ** Table info gatherer *)

(** C1. For every corpus, selected-file list and relevant-table list,
    [grab_table_info] returns, in selection order and then corpus order,
    the descriptor (name, description, columns) of exactly those tables of
    the selected files present in the corpus whose name is contained in at
    least one relevant-table entry; with the entry "orders_2024" a table
    named "orders" is returned. *)
Theorem grab_table_info_matches `{Runtime} (c : corpus)
  (fns rts : list string) :
  grab_table_info (str_list rts) (str_list fns) (corpus_value c)
  = Ok (map descriptor_value (flat_map (file_matches c rts) fns))
  /\ (forall t,
        In t (flat_map (file_matches c rts) fns)
        <-> exists f ts,
              In f fns /\ corpus_lookup f c = Some ts /\ In t ts
              /\ exists rt pre post,
                   In rt rts /\ rt = pre ++ td_name t ++ post)
  /\ (forall f description columns,
        let t := {| td_name := "orders";
                    td_description := description;
                    td_columns := columns |} in
        name_matches ["orders_2024"] t = true
        /\ grab_table_info (str_list ["orders_2024"]) (str_list [f])
             (corpus_value [(f, [t])])
           = Ok [descriptor_value t]).
Proof.
  split; [apply grab_table_info_typed|]. split.
  - intros t. rewrite in_flat_map. unfold file_matches, tables_of_file.
    split.
    + intros (f & Hf & Ht). apply filter_In in Ht as [Ht Hm].
      destruct (corpus_lookup f c) as [ts|] eqn:E; [|destruct Ht].
      exists f, ts. repeat split; try assumption.
      unfold name_matches in Hm. apply existsb_exists in Hm as (rt & Hrt & Hc).
      apply str_contains_spec in Hc as (pre & post & ->).
      now exists (pre ++ td_name t ++ post), pre, post.
    + intros (f & ts & Hf & E & Ht & rt & pre & post & Hrt & ->).
      exists f. split; [exact Hf|]. rewrite E. apply filter_In.
      split; [exact Ht|]. unfold name_matches. apply existsb_exists.
      exists (pre ++ td_name t ++ post). split; [exact Hrt|].
      apply str_contains_spec. now exists pre, post.
  - intros f description columns t. split; [reflexivity|].
    rewrite grab_table_info_typed. unfold file_matches, tables_of_file.
    simpl. now rewrite String.eqb_refl.
Qed.

(* ================================================================= *)
(** ** Table extractor *)

(** C4. For every corpus and selected-file list, [get_tables_from_files]
    returns the strings "name : description" of the descriptors of the
    selected files present in the corpus, in selection order and then in
    corpus order; a selected file the corpus does not have contributes
    nothing and raises no error. *)
Theorem get_tables_from_files_strings `{Runtime} (c : corpus)
  (fns : list string) :
  get_tables_from_files (str_list fns) (corpus_value c)
  = Ok (flat_map (file_strings c) fns)
  /\ (forall f,
        file_strings c f
        = match corpus_lookup f c with
          | Some ts => map (fun t => td_name t ++ " : " ++ td_description t) ts
          | None => []
          end)
  /\ ((forall f, In f fns -> corpus_lookup f c = None) ->
      get_tables_from_files (str_list fns) (corpus_value c) = Ok []).
Proof.
  split; [apply get_tables_from_files_typed|]. split.
  - intros f. unfold file_strings, tables_of_file.
    now destruct (corpus_lookup f c).
  - intros Habsent. rewrite get_tables_from_files_typed. f_equal.
    induction fns as [|f fns IH]; simpl; [reflexivity|].
    unfold file_strings at 1, tables_of_file.
    rewrite (Habsent f) by now left. simpl.
    apply IH. intros g Hg. apply Habsent. now right.
Qed.

Lemma get_tables_from_files_strings_witness :
  (forall f, In f ["b.json"; "c.json"] -> corpus_lookup f orders_corpus = None)
  /\ @get_tables_from_files (example_runtime [] [])
       (str_list ["b.json"; "c.json"]) (corpus_value orders_corpus)
     = Ok [].
Proof.
  assert (Habsent : forall f, In f ["b.json"; "c.json"] ->
                              corpus_lookup f orders_corpus = None).
  { intros f [<-|[<-|[]]]; reflexivity. }
  split; [exact Habsent|].
  exact (proj2 (proj2 (@get_tables_from_files_strings (example_runtime [] [])
                         orders_corpus ["b.json"; "c.json"])) Habsent).
Defined.

(* ================================================================= *)
(** ** Repeated selections *)

(** C10. Neither the extractor nor the gatherer removes duplicates from
    the selected-file list: when a file occurs [n] times in it, the output
    has [n] copies of what the file contributes, next to what the other
    selected files contribute. *)
Theorem selected_files_not_deduplicated `{Runtime} (c : corpus)
  (fns rts : list string) (f : string) :
  let n := count_occ string_dec fns f in
  let others := remove string_dec f fns in
  (exists strings,
      get_tables_from_files (str_list fns) (corpus_value c) = Ok strings
      /\ forall p,
           count_if p strings
           = n * count_if p (file_strings c f)
             + count_if p (flat_map (file_strings c) others))
  /\ (exists infos,
         grab_table_info (str_list rts) (str_list fns) (corpus_value c)
         = Ok infos
         /\ forall p,
              count_if p infos
              = n * count_if p (map descriptor_value (file_matches c rts f))
                + count_if p
                    (flat_map
                       (fun g => map descriptor_value (file_matches c rts g))
                       others))
  /\ (forall k,
        get_tables_from_files (str_list (repeat f k)) (corpus_value c)
        = Ok (concat (repeat (file_strings c f) k))
        /\ grab_table_info (str_list rts) (str_list (repeat f k))
             (corpus_value c)
           = Ok (concat (repeat (map descriptor_value (file_matches c rts f))
                           k))).
Proof.
  intros n others. split; [|split].
  - exists (flat_map (file_strings c) fns).
    split; [apply get_tables_from_files_typed|].
    intros p. apply count_if_flat_map.
  - exists (map descriptor_value (flat_map (file_matches c rts) fns)).
    split; [apply grab_table_info_typed|].
    intros p. rewrite map_flat_map.
    exact (count_if_flat_map p
             (fun g => map descriptor_value (file_matches c rts g)) f fns).
  - intros k. split.
    + rewrite get_tables_from_files_typed. now rewrite flat_map_repeat.
    + rewrite grab_table_info_typed, map_flat_map.
      now rewrite (flat_map_repeat
                     (fun g => map descriptor_value (file_matches c rts g))).
Qed.

(* ================================================================= *)
(** ** Corpus loader *)

(** C9. Every descriptor of a corpus that [get_table_clusters] returned
    has the three keys [table_name], [table_description] and [columns], so
    on such a corpus the subscripts in [get_tables_from_files] and
    [grab_table_info] never raise [KeyError]. *)
Theorem loaded_descriptors_have_all_fields `{Runtime} (folder_path : string)
  (data : pydict) :
  get_table_clusters folder_path = Ok data ->
  (forall f v,
      dict_lookup f data = Some v ->
      exists ts, v = PyList ts /\ Forall has_three_fields ts)
  /\ (forall f ts t,
        dict_lookup f data = Some (PyList ts) -> In t ts ->
        exists n d c,
          py_getitem_str t "table_name" = Ok n
          /\ py_getitem_str t "table_description" = Ok d
          /\ py_getitem_str t "columns" = Ok c)
  /\ (forall file_names key,
        get_tables_from_files file_names data <> Raise (KeyError key))
  /\ (forall relevant_tables file_names key,
        grab_table_info relevant_tables file_names data
        <> Raise (KeyError key)).
Proof.
  intros Hload. apply get_table_clusters_well_formed in Hload as Hwf.
  assert (Hrows : forall f v, dict_lookup f data = Some v ->
            exists ts, v = PyList ts /\ Forall has_three_fields ts).
  { intros f v Hv. apply dict_lookup_in in Hv.
    unfold well_formed_data in Hwf. rewrite Forall_forall in Hwf.
    exact (Hwf _ Hv). }
  split; [exact Hrows|]. split; [|split].
  - intros f ts t Hf Ht. destruct (Hrows _ _ Hf) as (ts' & [= <-] & Hts).
    rewrite Forall_forall in Hts. destruct (Hts _ Ht) as (n & d & c & ->).
    now exists n, d, c.
  - intros file_names key. apply only_type_error_no_key.
    now apply get_tables_from_files_only.
  - intros relevant_tables file_names key. apply only_type_error_no_key.
    now apply grab_table_info_only.
Qed.

Lemma loaded_descriptors_have_all_fields_witness :
  @get_table_clusters (example_runtime orders_files []) default_folder_path
  = Ok (corpus_value orders_corpus)
  /\ forall file_names key,
       @get_tables_from_files (example_runtime orders_files []) file_names
         (corpus_value orders_corpus)
       <> Raise (KeyError key).
Proof.
  split; [reflexivity|].
  exact (proj1 (proj2 (proj2
           (@loaded_descriptors_have_all_fields
              (example_runtime orders_files []) default_folder_path
              (corpus_value orders_corpus) eq_refl)))).
Defined.

(** C5, as the code has it. For a JSON array whose elements are objects
    (or strings or arrays in which ['table_name' in element] is false), the
    loader builds a descriptor for exactly the objects with the key
    [table_name], in order, with [table_description] defaulting to the
    empty string and [columns] to the empty list; when no element has the
    key the table list of the file is empty.  Any other element makes the
    loader raise [TypeError]. *)
Theorem load_tables_of_objects `{Runtime} (l : list pyval) :
  load_tables (PyList l)
  = (if forallb element_ok l then Ok (built_descriptors l)
     else Raise TypeError)
  /\ ((forall v, In v l -> exists d, v = PyDict d) ->
      load_tables (PyList l) = Ok (built_descriptors l))
  /\ (forall v,
        In v (built_descriptors l)
        <-> exists d,
              In (PyDict d) l /\ dict_mem "table_name" d = true
              /\ v = PyDict
                       [("table_name",
                          dict_get_default "table_name" d PyNone);
                        ("table_description",
                          dict_get_default "table_description" d (PyStr ""));
                        ("columns",
                          dict_get_default "columns" d (PyList []))])
  /\ (forallb element_ok l = true ->
      (forall d, In (PyDict d) l -> dict_mem "table_name" d = false) ->
      load_tables (PyList l) = Ok [])
  /\ (forall file_structure json_file text,
        forallb element_ok l = true ->
        open_read json_file = Ok text ->
        json_loads text = Some (PyList l) ->
        load_file file_structure json_file
        = Ok (dict_set file_structure (basename json_file)
                (PyList (built_descriptors l)))).
Proof.
  split; [apply load_tables_list|]. split; [|split; [|split]].
  - intros Hobj. rewrite load_tables_list.
    replace (forallb element_ok l) with true; [reflexivity|].
    symmetry. apply forallb_forall. intros v Hv.
    now destruct (Hobj v Hv) as [d ->].
  - apply built_descriptors_in.
  - intros Hok Hnone. rewrite load_tables_list, Hok. f_equal.
    destruct (built_descriptors l) as [|v vs] eqn:E; [reflexivity|].
    assert (Hv : In v (built_descriptors l)) by (rewrite E; now left).
    apply built_descriptors_in in Hv as (d & Hd & Hm & _).
    rewrite (Hnone d Hd) in Hm. discriminate.
  - intros file_structure json_file text Hok Hopen Hjson. unfold load_file.
    rewrite Hopen. cbn [rbind]. unfold json_load. rewrite Hjson.
    cbn [rbind]. now rewrite load_tables_list, Hok.
Qed.

Lemma load_tables_of_objects_witness :
  (forall v, In v example_objects -> exists d, v = PyDict d)
  /\ @load_tables (example_runtime [] []) (PyList example_objects)
     = Ok [PyDict [("table_name", PyStr "customers");
                   ("table_description", PyStr "");
                   ("columns", PyList [])]]
  /\ @load_tables (example_runtime [] []) (PyList example_elements)
     = Ok [PyDict [("table_name", PyStr "customers");
                   ("table_description", PyStr "");
                   ("columns", PyList [])]]
  /\ @load_tables (example_runtime [] []) (PyList [PyDict []; PyStr "note"])
     = Ok [].
Proof.
  assert (Hobj : forall v, In v example_objects -> exists d, v = PyDict d).
  { intros v [<-|[<-|[]]]; eexists; reflexivity. }
  split; [exact Hobj|]. split; [|split].
  - exact (proj1 (proj2 (@load_tables_of_objects (example_runtime [] [])
                           example_objects)) Hobj).
  - exact (proj1 (@load_tables_of_objects (example_runtime [] [])
                    example_elements)).
  - apply (proj1 (proj2 (proj2 (proj2
             (@load_tables_of_objects (example_runtime [] [])
                [PyDict []; PyStr "note"]))))); [reflexivity|].
    intros d [[= <-]|[[=]|[]]]. reflexivity.
Defined.

(** C5 fails as stated: the array [[1]] is well formed and its element
    has no [table_name], yet the loader raises [TypeError] instead of
    giving the file an empty table list. *)
Lemma load_tables_number_element :
  @json_loads (example_runtime number_files []) "[1]"
  = Some (PyList [PyInt 1])
  /\ @load_tables (example_runtime number_files []) (PyList [PyInt 1])
     = Raise TypeError
  /\ @get_table_clusters (example_runtime number_files [])
       default_folder_path
     = Raise TypeError
  /\ @get_table_clusters (example_runtime number_files [])
       default_folder_path
     <> Ok [("n.json", PyList [])].
Proof. repeat split; try reflexivity. discriminate. Qed.

(** C2, as the code has it. A file whose top-level JSON value is not a
    list gets an empty table list and the loader goes on with the
    remaining files; a file that is not valid JSON makes the loader raise
    [JSONDecodeError], and no corpus is returned. *)
Theorem file_without_sequence `{Runtime} (folder_path : string)
  (pre post : list string) (json_file text : string)
  (file_structure : pydict) :
  glob_glob folder_path = (pre ++ json_file :: post)%list ->
  for_each pre load_file [] = Ok file_structure ->
  open_read json_file = Ok text ->
  (forall v,
      json_loads text = Some v -> (forall l, v <> PyList l) ->
      let file_structure' :=
        dict_set file_structure (basename json_file) (PyList []) in
      load_file file_structure json_file = Ok file_structure'
      /\ get_table_clusters folder_path
         = for_each post load_file file_structure'
      /\ forall data,
           get_table_clusters folder_path = Ok data ->
           ~ In (basename json_file) (map basename post) ->
           dict_lookup (basename json_file) data = Some (PyList []))
  /\ (json_loads text = None ->
      load_file file_structure json_file = Raise JSONDecodeError
      /\ get_table_clusters folder_path = Raise JSONDecodeError).
Proof.
  intros Hglob Hpre Hopen.
  assert (Hsplit : get_table_clusters folder_path
                   = rbind (load_file file_structure json_file)
                       (for_each post load_file)).
  { unfold get_table_clusters. rewrite Hglob, for_each_app, Hpre.
    reflexivity. }
  split.
  - intros v Hjson Hv fs'.
    assert (Hfile : load_file file_structure json_file = Ok fs').
    { unfold load_file. rewrite Hopen. cbn [rbind]. unfold json_load.
      rewrite Hjson. cbn [rbind]. now rewrite (load_tables_other v Hv). }
    split; [exact Hfile|]. rewrite Hsplit, Hfile. cbn [rbind].
    split; [reflexivity|]. intros data Hdata Hlater.
    rewrite (later_files_keep _ _ Hlater _ _ Hdata). unfold fs'.
    now rewrite dict_lookup_set, String.eqb_refl.
  - intros Hjson.
    assert (Hfile : load_file file_structure json_file
                    = Raise JSONDecodeError).
    { unfold load_file. rewrite Hopen. cbn [rbind]. unfold json_load.
      now rewrite Hjson. }
    split; [exact Hfile|]. now rewrite Hsplit, Hfile.
Qed.

Lemma file_without_sequence_witness :
  @get_table_clusters (example_runtime null_files []) default_folder_path
  = Ok [("a.json", PyList [descriptor_value orders_descriptor]);
        ("n.json", PyList []);
        ("z.json", PyList [])].
Proof.
  pose proof (@file_without_sequence (example_runtime null_files [])
                default_folder_path ["prospr/a.json"] ["prospr/z.json"]
                "prospr/n.json" "null"
                [("a.json", PyList [descriptor_value orders_descriptor])]
                eq_refl eq_refl eq_refl) as [Hnull _].
  destruct (Hnull PyNone eq_refl) as (_ & Hrun & _); [discriminate|].
  rewrite Hrun. reflexivity.
Defined.

(** C2 fails as stated: a file that is not valid JSON does not get an
    empty table list; the loader raises and returns no corpus, although
    the other file alone loads. *)
Lemma unparsable_file_raises :
  @json_loads (example_runtime broken_files []) "{not json" = None
  /\ @get_table_clusters (example_runtime orders_files [])
       default_folder_path
     = Ok (corpus_value orders_corpus)
  /\ @get_table_clusters (example_runtime broken_files [])
       default_folder_path
     = Raise JSONDecodeError.
Proof. repeat split. Qed.

(* ================================================================= *)
(** ** Fence stripping *)

(** C3, as the code has it. Fence-stripping removes the markers
    [```json] and [```] wherever they stand in the response text, not only
    at its start and end (no [```] is left in the cleaned text), and then
    trims the surrounding whitespace; a response wrapped in
    [```json ... ```], with any whitespace around the fences, is cleaned
    to the same text as the response without the fences, so both selectors
    return the same result for the two. *)
Theorem fence_stripping_wrapped `{Runtime} :
  (forall s, str_contains "```" (strip_fences s) = false)
  /\ (forall pre post,
        avoids "`" pre = true -> avoids "`" post = true ->
        strip_fences (pre ++ "```json" ++ post) = str_strip (pre ++ post)
        /\ (starts_with "json" post = false ->
            strip_fences (pre ++ "```" ++ post) = str_strip (pre ++ post)))
  /\ (forall a0 a s b b0,
        all_space a0 = true -> all_space a = true ->
        all_space b = true -> all_space b0 = true ->
        strip_fences (a0 ++ fenced a s b ++ b0) = strip_fences s
        /\ json_load (strip_fences (a0 ++ fenced a s b ++ b0))
           = json_load (strip_fences s))
  /\ (forall a0 a s b b0 (client1 client2 : openai_client) names prompt w,
        all_space a0 = true -> all_space a = true ->
        all_space b = true -> all_space b0 = true ->
        client1 (requests w) (files_request names prompt)
        = Ok (a0 ++ fenced a s b ++ b0) ->
        client2 (requests w) (files_request names prompt) = Ok s ->
        get_relevant_files client1 names prompt w
        = get_relevant_files client2 names prompt w)
  /\ (forall a0 a s b b0 (client1 client2 : openai_client) strs prompt w,
        all_space a0 = true -> all_space a = true ->
        all_space b = true -> all_space b0 = true ->
        client1 (requests w) (tables_request strs prompt)
        = Ok (a0 ++ fenced a s b ++ b0) ->
        client2 (requests w) (tables_request strs prompt) = Ok s ->
        pick_relevant_tables client1 strs prompt w
        = pick_relevant_tables client2 strs prompt w).
Proof.
  split; [exact strip_fences_clean|]. split; [|split; [|split]].
  - intros pre post Hpre Hpost.
    split; [now apply strip_fences_json_marker|].
    intros Hjson. now apply strip_fences_plain_marker.
  - intros a0 a s b b0 Ha0 Ha Hb Hb0. unfold fenced.
    now rewrite (strip_fences_wrapped a0 a s b b0 Ha0 Ha Hb Hb0).
  - intros a0 a s b b0 client1 client2 names prompt w Ha0 Ha Hb Hb0 H1 H2.
    rewrite !get_relevant_files_run. cbn zeta. rewrite H1, H2.
    unfold parse_selection, fenced.
    now rewrite (strip_fences_wrapped a0 a s b b0 Ha0 Ha Hb Hb0).
  - intros a0 a s b b0 client1 client2 strs prompt w Ha0 Ha Hb Hb0 H1 H2.
    rewrite !pick_relevant_tables_run. cbn zeta. rewrite H1, H2.
    unfold parse_selection, fenced.
    now rewrite (strip_fences_wrapped a0 a s b b0 Ha0 Ha Hb Hb0).
Qed.

Lemma fence_stripping_wrapped_witness :
  all_space nl = true
  /\ strip_fences ("" ++ fenced nl files_answer_text nl ++ nl)
     = strip_fences files_answer_text
  /\ @get_relevant_files (example_runtime [] [])
       (example_client ["" ++ fenced nl files_answer_text nl ++ nl])
       ["a.json"] "sales" empty_world
     = @get_relevant_files (example_runtime [] [])
         (example_client [files_answer_text]) ["a.json"] "sales" empty_world.
Proof.
  pose proof (@fence_stripping_wrapped (example_runtime [] []))
    as (_ & _ & Hclean & Hfiles & _).
  split; [reflexivity|]. split.
  - exact (proj1 (Hclean "" nl files_answer_text nl nl
                    eq_refl eq_refl eq_refl eq_refl)).
  - exact (Hfiles "" nl files_answer_text nl nl
             (example_client ["" ++ fenced nl files_answer_text nl ++ nl])
             (example_client [files_answer_text])
             ["a.json"] "sales" empty_world
             eq_refl eq_refl eq_refl eq_refl eq_refl eq_refl).
Defined.

(** C3 fails as stated: a marker in the middle of the text, here inside
    a JSON string, is removed as well, where stripping at the start and
    the end only would leave the text as it is. *)
Lemma fence_inside_text_removed :
  strip_fences marker_inside = "[" ++ dq ++ "ab" ++ dq ++ "]"
  /\ strip_fences_at_ends marker_inside = marker_inside
  /\ strip_fences marker_inside <> strip_fences_at_ends marker_inside.
Proof. repeat split. discriminate. Qed.

(* ================================================================= *)
(** ** SQL synthesizer *)

(** C8. [generate_sql] returns the text of the response as it is: the
    result is what the client answered to the one request, not parsed, not
    validated and with its fences, if any. *)
Theorem generate_sql_verbatim `{Runtime} (client : openai_client)
  (relevant_tables : pyval) (prompt : string) (columns : list pyval)
  (w : world) :
  let req := sql_request relevant_tables prompt columns in
  let run := generate_sql client relevant_tables prompt columns w in
  fst run = client (requests w) req
  /\ requests (snd run) = (requests w ++ [req])%list
  /\ (forall text, client (requests w) req = Ok text -> fst run = Ok text)
  /\ (client (requests w) req = Ok fenced_sql ->
      fst run = Ok fenced_sql /\ fst run <> Ok (strip_fences fenced_sql)).
Proof.
  intros req run. unfold run. rewrite generate_sql_run. cbn [fst snd requests].
  fold req. split; [reflexivity|]. split; [reflexivity|].
  split; [intros text Htext; exact Htext|].
  intros Hfenced. split; [exact Hfenced|].
  assert (Hne : fenced_sql <> strip_fences fenced_sql)
    by (vm_compute; discriminate).
  rewrite Hfenced. intros E. apply Hne. congruence.
Qed.

Lemma generate_sql_verbatim_witness :
  fst (@generate_sql (example_runtime [] []) (example_client [fenced_sql])
         (str_list ["orders"]) "sales" [] empty_world)
  = Ok fenced_sql.
Proof.
  pose proof (@generate_sql_verbatim (example_runtime [] [])
                (example_client [fenced_sql]) (str_list ["orders"]) "sales" []
                empty_world) as (_ & _ & _ & Hfenced).
  exact (proj1 (Hfenced eq_refl)).
Defined.

(* ================================================================= *)
(** ** Orchestrator *)

(** C6. The bundle of a run that completes holds every intermediate
    result: the corpus, its file names, the relevant files, the table
    strings, the relevant tables, the column info and the SQL text, each
    as its stage returned it.  In the scenario with the one-table corpus,
    where the file selector returns ["a.json"], the table selector
    ["orders"] and the SQL stage "SELECT * FROM orders;", the bundle has
    exactly that SQL text and the one "orders" descriptor as column
    info. *)
Theorem run_full_process_bundle `{Runtime} (api_key user_prompt : string)
  (w : world) :
  let client := create_openai_client api_key in
  (forall b w',
      run_full_process api_key user_prompt w = (Ok b, w') ->
      exists w1 w2,
        get_table_clusters default_folder_path = Ok (all_data b)
        /\ file_names b = dict_keys (all_data b)
        /\ get_relevant_files client (file_names b) user_prompt w
           = (Ok (relevant_files b), w1)
        /\ get_tables_from_files (relevant_files b) (all_data b)
           = Ok (tables b)
        /\ pick_relevant_tables client (tables b) user_prompt w1
           = (Ok (relevant_tables b), w2)
        /\ grab_table_info (relevant_tables b) (relevant_files b)
             (all_data b)
           = Ok (columns_info b)
        /\ generate_sql client (relevant_tables b) user_prompt
             (columns_info b) w2
           = (Ok (final_sql_query b), w'))
  /\ (forall w1 w2 w3,
        get_table_clusters default_folder_path
        = Ok (corpus_value orders_corpus) ->
        get_relevant_files client ["a.json"] user_prompt w
        = (Ok (str_list ["a.json"]), w1) ->
        pick_relevant_tables client ["orders : sales orders"] user_prompt w1
        = (Ok (str_list ["orders"]), w2) ->
        generate_sql client (str_list ["orders"]) user_prompt
          [descriptor_value orders_descriptor] w2
        = (Ok "SELECT * FROM orders;", w3) ->
        exists b,
          run_full_process api_key user_prompt w = (Ok b, w3)
          /\ all_data b = corpus_value orders_corpus
          /\ final_sql_query b = "SELECT * FROM orders;"
          /\ columns_info b = [descriptor_value orders_descriptor]).
Proof.
  intros client. split.
  - intros b w' Hrun. exact (run_full_process_ok _ _ _ _ _ Hrun).
  - intros w1 w2 w3 Hload Hfiles Htables Hsql.
    pose proof (run_full_process_stages api_key user_prompt w
                  (corpus_value orders_corpus) (str_list ["a.json"]) w1
                  ["orders : sales orders"] (str_list ["orders"]) w2
                  [descriptor_value orders_descriptor]
                  "SELECT * FROM orders;" w3
                  Hload Hfiles
                  (get_tables_from_files_typed orders_corpus ["a.json"])
                  Htables
                  (grab_table_info_typed orders_corpus ["orders"] ["a.json"])
                  Hsql) as Hrun.
    eexists. split; [exact Hrun|]. cbn. repeat split.
Qed.

Lemma run_full_process_bundle_witness :
  exists b w3,
    @run_full_process (example_runtime orders_files scenario_answers)
      "key" "sales" empty_world
    = (Ok b, w3)
    /\ final_sql_query b = "SELECT * FROM orders;"
    /\ columns_info b = [descriptor_value orders_descriptor]
    /\ @get_table_clusters (example_runtime orders_files scenario_answers)
         default_folder_path
       = Ok (all_data b).
Proof.
  pose proof (@run_full_process_bundle
                (example_runtime orders_files scenario_answers)
                "key" "sales" empty_world) as [Hall Hscenario].
  destruct (Hscenario _ _ _ eq_refl eq_refl eq_refl eq_refl)
    as (b & Hrun & _ & Hsql & Hinfo).
  exists b. eexists. split; [exact Hrun|].
  split; [exact Hsql|]. split; [exact Hinfo|].
  destruct (Hall _ _ Hrun) as (w1 & w2 & Hload & _). exact Hload.
Defined.

(** C7, as the code has it. A selector whose response, once the fences
    are stripped, is not valid JSON raises the parse error; one whose JSON
    is an object that lacks the expected key raises the missing-key error
    [KeyError]; one whose JSON is not an object raises [TypeError] at the
    same subscript.  In every case the stage has made its single request,
    nothing catches the error, and [run_full_process] raises it as it is,
    returning no bundle. *)
Theorem selector_errors_propagate `{Runtime} :
  (forall (client : openai_client) names prompt w text,
      client (requests w) (files_request names prompt) = Ok text ->
      (json_loads (strip_fences text) = None ->
       fst (get_relevant_files client names prompt w)
       = Raise JSONDecodeError)
      /\ (forall d,
            json_loads (strip_fences text) = Some (PyDict d) ->
            dict_lookup "relevant_files" d = None ->
            fst (get_relevant_files client names prompt w)
            = Raise (KeyError (PyStr "relevant_files")))
      /\ (forall v,
            json_loads (strip_fences text) = Some v ->
            (forall d, v <> PyDict d) ->
            fst (get_relevant_files client names prompt w)
            = Raise TypeError))
  /\ (forall (client : openai_client) strs prompt w text,
        client (requests w) (tables_request strs prompt) = Ok text ->
        (json_loads (strip_fences text) = None ->
         fst (pick_relevant_tables client strs prompt w)
         = Raise JSONDecodeError)
        /\ (forall d,
              json_loads (strip_fences text) = Some (PyDict d) ->
              dict_lookup "relevant_tables" d = None ->
              fst (pick_relevant_tables client strs prompt w)
              = Raise (KeyError (PyStr "relevant_tables")))
        /\ (forall v,
              json_loads (strip_fences text) = Some v ->
              (forall d, v <> PyDict d) ->
              fst (pick_relevant_tables client strs prompt w)
              = Raise TypeError))
  /\ (forall (client : openai_client) names strs prompt w,
        requests (snd (get_relevant_files client names prompt w))
        = (requests w ++ [files_request names prompt])%list
        /\ requests (snd (pick_relevant_tables client strs prompt w))
           = (requests w ++ [tables_request strs prompt])%list)
  /\ (forall api_key user_prompt w data e w1,
        get_table_clusters default_folder_path = Ok data ->
        get_relevant_files (create_openai_client api_key) (dict_keys data)
          user_prompt w
        = (Raise e, w1) ->
        run_full_process api_key user_prompt w = (Raise e, w1))
  /\ (forall api_key user_prompt w data files w1 strs e w2,
        get_table_clusters default_folder_path = Ok data ->
        get_relevant_files (create_openai_client api_key) (dict_keys data)
          user_prompt w
        = (Ok files, w1) ->
        get_tables_from_files files data = Ok strs ->
        pick_relevant_tables (create_openai_client api_key) strs
          user_prompt w1
        = (Raise e, w2) ->
        run_full_process api_key user_prompt w = (Raise e, w2)).
Proof.
  split; [|split; [|split; [|split]]].
  - intros client names prompt w text Htext.
    rewrite get_relevant_files_run. cbn zeta. rewrite Htext. cbn [fst].
    split; [apply parse_selection_invalid|].
    split; [apply parse_selection_no_key | apply parse_selection_not_object].
  - intros client strs prompt w text Htext.
    rewrite pick_relevant_tables_run. cbn zeta. rewrite Htext. cbn [fst].
    split; [apply parse_selection_invalid|].
    split; [apply parse_selection_no_key | apply parse_selection_not_object].
  - intros client names strs prompt w.
    rewrite get_relevant_files_run, pick_relevant_tables_run. cbn zeta.
    split.
    + now destruct (client (requests w) (files_request names prompt)).
    + now destruct (client (requests w) (tables_request strs prompt)).
  - intros *. apply run_full_process_files_error.
  - intros *. apply run_full_process_tables_error.
Qed.

Lemma selector_errors_propagate_witness :
  fst (@get_relevant_files (example_runtime orders_files invalid_answers)
         (example_client invalid_answers) ["a.json"] "sales" empty_world)
  = Raise JSONDecodeError
  /\ fst (@pick_relevant_tables
            (example_runtime orders_files other_key_answers)
            (example_client [other_key_text]) ["orders : sales orders"]
            "sales" empty_world)
     = Raise (KeyError (PyStr "relevant_tables"))
  /\ (exists w1,
         @run_full_process (example_runtime orders_files invalid_answers)
           "key" "sales" empty_world
         = (Raise JSONDecodeError, w1)
         /\ List.length (requests w1) = 1)
  /\ (exists w2,
         @run_full_process (example_runtime orders_files other_key_answers)
           "key" "sales" empty_world
         = (Raise (KeyError (PyStr "relevant_tables")), w2)
         /\ List.length (requests w2) = 2).
Proof.
  split; [|split; [|split]].
  - pose proof (@selector_errors_propagate
                  (example_runtime orders_files invalid_answers))
      as (Hfiles & _).
    exact (proj1 (Hfiles (example_client invalid_answers) ["a.json"] "sales"
                    empty_world "I cannot answer that." eq_refl) eq_refl).
  - pose proof (@selector_errors_propagate
                  (example_runtime orders_files other_key_answers))
      as (_ & Htables & _).
    exact (proj1 (proj2 (Htables (example_client [other_key_text])
                           ["orders : sales orders"] "sales" empty_world
                           other_key_text eq_refl))
             [("files", PyList [])] eq_refl eq_refl).
  - pose proof (@selector_errors_propagate
                  (example_runtime orders_files invalid_answers))
      as (_ & _ & _ & Hrun & _).
    eexists. split.
    + apply (Hrun "key" "sales" empty_world (corpus_value orders_corpus));
        [reflexivity|].
      apply surjective_pairing.
    + reflexivity.
  - pose proof (@selector_errors_propagate
                  (example_runtime orders_files other_key_answers))
      as (_ & _ & _ & _ & Hrun).
    eexists. split.
    + apply (Hrun "key" "sales" empty_world (corpus_value orders_corpus)
               (str_list ["a.json"])
               (snd (@get_relevant_files
                       (example_runtime orders_files other_key_answers)
                       (example_client other_key_answers) ["a.json"] "sales"
                       empty_world))
               ["orders : sales orders"]);
        [reflexivity | reflexivity | reflexivity |].
      apply surjective_pairing.
    + reflexivity.
Defined.

(** C7 fails as stated: a response that is valid JSON but not an object,
    here the array [[]] for the file selector and [null] for the table
    selector, lacks the key, yet the subscript raises [TypeError], not the
    missing-key error; the run raises that [TypeError]. *)
Lemma selector_non_object_type_error :
  @json_loads (example_runtime orders_files array_answers)
    (strip_fences "[]")
  = Some (PyList [])
  /\ fst (@get_relevant_files (example_runtime orders_files array_answers)
            (example_client array_answers) ["a.json"] "sales" empty_world)
     = Raise TypeError
  /\ fst (@get_relevant_files (example_runtime orders_files array_answers)
            (example_client array_answers) ["a.json"] "sales" empty_world)
     <> Raise (KeyError (PyStr "relevant_files"))
  /\ fst (@pick_relevant_tables (example_runtime orders_files null_answers)
            (example_client ["null"]) ["orders : sales orders"] "sales"
            empty_world)
     = Raise TypeError
  /\ fst (@run_full_process (example_runtime orders_files array_answers)
            "key" "sales" empty_world)
     = Raise TypeError
  /\ fst (@run_full_process (example_runtime orders_files null_answers)
            "key" "sales" empty_world)
     = Raise TypeError.
Proof. repeat split; try reflexivity. discriminate. Qed.

(* ================================================================= *)
(** * Further properties *)

(* ================================================================= *)
(** ** More on the corpus loader *)

Lemma dict_keys_set d k v :
  dict_keys (dict_set d k v) = add_key (dict_keys d) k.
Proof.
  unfold add_key, dict_keys.
  induction d as [|[k0 v0] d IH]; simpl; [reflexivity|].
  rewrite (String.eqb_sym k k0).
  destruct (String.eqb k0 k) eqn:E; simpl.
  - apply String.eqb_eq in E. now subst k0.
  - rewrite IH. now destruct (existsb (String.eqb k) (map fst d)).
Qed.

Lemma add_key_in keys k x :
  In x (add_key keys k) <-> In x keys \/ x = k.
Proof.
  unfold add_key. destruct (existsb (String.eqb k) keys) eqn:E.
  - split; [now left|]. intros [Hx| ->]; [exact Hx|].
    apply existsb_exists in E as (y & Hy & Hky).
    apply String.eqb_eq in Hky. now subst y.
  - rewrite in_app_iff. simpl. intuition.
Qed.

Lemma add_key_nodup keys k : NoDup keys -> NoDup (add_key keys k).
Proof.
  intros Hn. unfold add_key.
  destruct (existsb (String.eqb k) keys) eqn:E; [exact Hn|].
  apply NoDup_app; [exact Hn | repeat constructor; intros [] | ].
  intros x Hx [Hk|[]]. subst x.
  assert (existsb (String.eqb k) keys = true); [|congruence].
  apply existsb_exists. exists k. split; [exact Hx | apply String.eqb_refl].
Qed.

Lemma fold_add_key_in names :
  forall keys x,
    In x (fold_left add_key names keys) <-> In x keys \/ In x names.
Proof.
  induction names as [|n names IH]; intros keys x; simpl.
  - intuition.
  - rewrite IH, add_key_in. intuition.
Qed.

Lemma fold_add_key_nodup names :
  forall keys, NoDup keys -> NoDup (fold_left add_key names keys).
Proof.
  induction names as [|n names IH]; intros keys Hn; simpl; [exact Hn|].
  apply IH. now apply add_key_nodup.
Qed.

(** What a file that loads does to the dict. *)
Lemma load_file_ok `{Runtime} file_structure json_file d :
  load_file file_structure json_file = Ok d ->
  exists text v ts,
    open_read json_file = Ok text /\ json_loads text = Some v
    /\ load_tables v = Ok ts
    /\ d = dict_set file_structure (basename json_file) (PyList ts).
Proof.
  unfold load_file, json_load.
  destruct (open_read json_file) as [text|]; [|discriminate]. cbn [rbind].
  destruct (json_loads text) as [v|] eqn:Ev; [|discriminate]. cbn [rbind].
  destruct (load_tables v) as [ts|] eqn:E; [|discriminate]. cbn [rbind].
  intros [= <-]. exists text, v, ts. now rewrite Ev.
Qed.

Lemma loaded_keys `{Runtime} json_files :
  forall file_structure d,
    for_each json_files load_file file_structure = Ok d ->
    dict_keys d
    = fold_left add_key (map basename json_files) (dict_keys file_structure).
Proof.
  induction json_files as [|p ps IH]; intros fs d; simpl.
  - now intros [= <-].
  - destruct (load_file fs p) as [fs'|] eqn:E; [|discriminate]. simpl.
    intros Hd. rewrite (IH _ _ Hd).
    destruct (load_file_ok _ _ _ E) as (_ & _ & ts & _ & _ & _ & ->).
    now rewrite dict_keys_set.
Qed.

Lemma basename_from_no_slash p :
  forall acc, avoids "/" acc = true -> avoids "/" (basename_from acc p) = true.
Proof.
  induction p as [|c p IH]; intros acc Hacc; simpl; [exact Hacc|].
  destruct (Ascii.eqb c "/") eqn:E.
  - now apply IH.
  - apply IH. rewrite avoids_app, Hacc. simpl. now rewrite E.
Qed.

(** X1. The keys of the loaded corpus, which are the file names offered
    to the file selector, are the base names of the files the pattern
    matches, each once, in the order of their first occurrence; no key
    has a directory part. *)
Theorem loaded_corpus_keys `{Runtime} (folder_path : string) (data : pydict) :
  get_table_clusters folder_path = Ok data ->
  dict_keys data = first_occurrences (map basename (glob_glob folder_path))
  /\ NoDup (dict_keys data)
  /\ (forall k,
        In k (dict_keys data)
        <-> exists json_file,
              In json_file (glob_glob folder_path)
              /\ basename json_file = k)
  /\ (forall k, In k (dict_keys data) -> avoids "/" k = true).
Proof.
  intros Hload. unfold get_table_clusters in Hload.
  pose proof (loaded_keys _ _ _ Hload) as Hkeys. simpl in Hkeys.
  fold (first_occurrences (map basename (glob_glob folder_path))) in Hkeys.
  assert (Hin : forall k,
             In k (dict_keys data)
             <-> exists json_file,
                   In json_file (glob_glob folder_path)
                   /\ basename json_file = k).
  { intros k. rewrite Hkeys. unfold first_occurrences.
    rewrite fold_add_key_in, in_map_iff. simpl.
    split; [intros [[]|(p & Hp & Hi)]; now exists p
           | intros (p & Hi & Hp); right; now exists p]. }
  split; [exact Hkeys|]. split; [|split; [exact Hin|]].
  - rewrite Hkeys. apply fold_add_key_nodup. constructor.
  - intros k Hk. apply Hin in Hk as (p & _ & <-).
    now apply basename_from_no_slash.
Qed.

Lemma loaded_corpus_keys_witness :
  @get_table_clusters (example_runtime same_name_files []) "*/*.json"
  = Ok [("a.json", PyList []); ("b.json", PyList [])]
  /\ dict_keys [("a.json", PyList []); ("b.json", PyList [])]
     = first_occurrences ["a.json"; "b.json"; "a.json"].
Proof.
  split; [reflexivity|].
  exact (proj1 (@loaded_corpus_keys (example_runtime same_name_files [])
                  "*/*.json" [("a.json", PyList []); ("b.json", PyList [])]
                  eq_refl)).
Defined.

Lemma for_each_split {A S} (xs : list A) x (ys : list A)
  (body : S -> A -> result S) acc r :
  for_each (xs ++ x :: ys) body acc = Ok r ->
  exists acc1 acc2,
    for_each xs body acc = Ok acc1 /\ body acc1 x = Ok acc2
    /\ for_each ys body acc2 = Ok r.
Proof.
  rewrite for_each_app.
  destruct (for_each xs body acc) as [acc1|]; [|discriminate]. simpl.
  destruct (body acc1 x) as [acc2|] eqn:E; [|discriminate]. simpl.
  intros Hr. now exists acc1, acc2.
Qed.

(** X2. The entry of a file name holds the tables of the last matched
    file with that base name: an earlier file of the same name is
    replaced, whatever it held. *)
Theorem last_file_of_a_name_wins `{Runtime} (folder_path : string)
  (pre post : list string) (json_file : string) (data : pydict) :
  glob_glob folder_path = (pre ++ json_file :: post)%list ->
  ~ In (basename json_file) (map basename post) ->
  get_table_clusters folder_path = Ok data ->
  exists text v ts,
    open_read json_file = Ok text
    /\ json_loads text = Some v
    /\ load_tables v = Ok ts
    /\ dict_lookup (basename json_file) data = Some (PyList ts).
Proof.
  intros Hglob Hlast Hload. unfold get_table_clusters in Hload.
  rewrite Hglob in Hload.
  apply for_each_split in Hload as (fs1 & fs2 & _ & Hfile & Hpost).
  destruct (load_file_ok _ _ _ Hfile) as (text & v & ts & Ho & Hj & Ht & ->).
  exists text, v, ts. repeat split; try assumption.
  rewrite (later_files_keep _ _ Hlast _ _ Hpost).
  now rewrite dict_lookup_set, String.eqb_refl.
Qed.

Lemma last_file_of_a_name_wins_witness :
  @glob_glob (example_runtime same_name_files []) "*/*.json"
  = ["x/a.json"; "y/b.json"; "z/a.json"]
  /\ exists text v ts,
       @open_read (example_runtime same_name_files []) "z/a.json" = Ok text
       /\ @json_loads (example_runtime same_name_files []) text = Some v
       /\ @load_tables (example_runtime same_name_files []) v = Ok ts
       /\ dict_lookup (basename "z/a.json")
            [("a.json", PyList []); ("b.json", PyList [])]
          = Some (PyList ts).
Proof.
  split; [reflexivity|].
  exact (@last_file_of_a_name_wins (example_runtime same_name_files [])
           "*/*.json" ["x/a.json"; "y/b.json"] [] "z/a.json"
           [("a.json", PyList []); ("b.json", PyList [])]
           eq_refl (fun F => F) eq_refl).
Defined.

(** X3. The loader stops at the first file that cannot be read, or whose
    array has an element it cannot handle: that error is the error of the
    loader, whatever the files after it hold, and no corpus is returned. *)
Theorem loader_stops_at_first_error `{Runtime} (folder_path : string)
  (pre post : list string) (json_file : string) (file_structure : pydict) :
  glob_glob folder_path = (pre ++ json_file :: post)%list ->
  for_each pre load_file [] = Ok file_structure ->
  (forall e,
      open_read json_file = Raise e -> get_table_clusters folder_path = Raise e)
  /\ (forall text l,
        open_read json_file = Ok text ->
        json_loads text = Some (PyList l) ->
        forallb element_ok l = false ->
        get_table_clusters folder_path = Raise TypeError).
Proof.
  intros Hglob Hpre.
  assert (Hsplit : get_table_clusters folder_path
                   = rbind (load_file file_structure json_file)
                       (for_each post load_file)).
  { unfold get_table_clusters. rewrite Hglob, for_each_app, Hpre.
    reflexivity. }
  split.
  - intros e Hopen. rewrite Hsplit. unfold load_file. now rewrite Hopen.
  - intros text l Hopen Hjson Hbad. rewrite Hsplit. unfold load_file, json_load.
    rewrite Hopen. cbn [rbind]. rewrite Hjson. cbn [rbind].
    now rewrite load_tables_list, Hbad.
Qed.

Lemma loader_stops_at_first_error_witness :
  @get_table_clusters unreadable_runtime "prospr/*.json"
  = Raise OSError
  /\ @get_table_clusters (example_runtime number_then_orders []) "prospr/*.json"
     = Raise TypeError.
Proof.
  split.
  - exact (proj1 (@loader_stops_at_first_error
                    unreadable_runtime "prospr/*.json"
                    ["prospr/a.json"] ["prospr/z.json"] "prospr/missing.json"
                    [("a.json", PyList [descriptor_value orders_descriptor])]
                    eq_refl eq_refl) OSError eq_refl).
  - exact (proj2 (@loader_stops_at_first_error
                    (example_runtime number_then_orders []) "prospr/*.json"
                    [] ["prospr/a.json"] "prospr/n.json" [] eq_refl eq_refl)
             "[1]" [PyInt 1] eq_refl eq_refl eq_refl).
Defined.

(* ================================================================= *)
(** ** More on the table extractor and the info gatherer *)

Lemma get_tables_from_files_steps `{Runtime} file_names data :
  get_tables_from_files file_names data
  = rbind (py_iter file_names) (fun fns => for_each fns (extract_step data) []).
Proof. reflexivity. Qed.

Lemma grab_table_info_steps `{Runtime} relevant_tables file_names data :
  grab_table_info relevant_tables file_names data
  = rbind (py_iter file_names)
      (fun fns => for_each fns (gather_step relevant_tables data) []).
Proof. reflexivity. Qed.

Lemma corpus_lookup_in f c ts :
  corpus_lookup f c = Some ts -> In (f, ts) c.
Proof.
  induction c as [|[f0 ts0] c IH]; simpl; [discriminate|].
  destruct (String.eqb f0 f) eqn:E.
  - apply String.eqb_eq in E. intros [= ->]. left. now subst.
  - intros Hl. right. now apply IH.
Qed.

Lemma filter_all {A} (p : A -> bool) l :
  (forall x, In x l -> p x = true) -> filter p l = l.
Proof.
  induction l as [|x l IH]; intros Hp; simpl; [reflexivity|].
  rewrite (Hp x) by now left. f_equal. apply IH. intros; apply Hp; now right.
Qed.

Lemma filter_none {A} (p : A -> bool) l :
  (forall x, In x l -> p x = false) -> filter p l = [].
Proof.
  induction l as [|x l IH]; intros Hp; simpl; [reflexivity|].
  rewrite (Hp x) by now left. apply IH. intros; apply Hp; now right.
Qed.

Lemma flat_map_same {A B} (f g : A -> list B) l :
  (forall x, In x l -> f x = g x) -> flat_map f l = flat_map g l.
Proof.
  induction l as [|x l IH]; intros Hfg; simpl; [reflexivity|].
  rewrite (Hfg x) by now left. f_equal. apply IH. intros; apply Hfg; now right.
Qed.

Lemma flat_map_nothing {A B} (l : list A) :
  flat_map (fun _ : A => @nil B) l = [].
Proof. induction l as [|x l IH]; simpl; [reflexivity | exact IH]. Qed.

Lemma filter_flat_map {A B} (p : B -> bool) (f : A -> list B) l :
  filter p (flat_map f l) = flat_map (fun x => filter p (f x)) l.
Proof.
  induction l as [|x l IH]; simpl; [reflexivity|].
  now rewrite filter_app, IH.
Qed.

Section Steps.
Context `{Runtime}.

Lemma extract_rows_typed ts acc :
  for_each (map descriptor_value ts) extract_row acc
  = Ok (acc ++ map table_string ts)%list.
Proof. apply extract_rows. Qed.

Lemma extract_step_str c f acc :
  extract_step (corpus_value c) acc (PyStr f)
  = Ok (acc ++ file_strings c f)%list.
Proof.
  unfold extract_step. rewrite py_in_corpus. cbn [rbind].
  unfold file_strings, tables_of_file, py_dict_getitem.
  rewrite corpus_value_lookup.
  destruct (corpus_lookup f c) as [ts|]; simpl.
  - apply extract_rows_typed.
  - now rewrite app_nil_r.
Qed.

Lemma extract_step_scalar data v acc :
  hashable v = true -> is_str v = false ->
  extract_step data acc v = Ok acc.
Proof. destruct v; try discriminate; reflexivity. Qed.

Lemma extract_step_unhashable data v acc :
  hashable v = false -> extract_step data acc v = Raise TypeError.
Proof. destruct v; try discriminate; reflexivity. Qed.

Lemma gather_step_scalar rt data v acc :
  hashable v = true -> is_str v = false ->
  gather_step rt data acc v = Ok acc.
Proof. destruct v; try discriminate; reflexivity. Qed.

Lemma gather_step_unhashable rt data v acc :
  hashable v = false -> gather_step rt data acc v = Raise TypeError.
Proof. destruct v; try discriminate; reflexivity. Qed.

(** One file of a corpus of the data model, for any relevant-table value
    for which the rows behave as [keep] says. *)
Lemma gather_step_rows rt c f acc (keep : TableDescriptor -> bool) :
  (forall t acc',
      In t (tables_of_file c f) ->
      gather_row rt acc' (descriptor_value t)
      = Ok (if keep t then acc' ++ [descriptor_value t] else acc')%list) ->
  gather_step rt (corpus_value c) acc (PyStr f)
  = Ok (acc ++ map descriptor_value (filter keep (tables_of_file c f)))%list.
Proof.
  intros Hrow. unfold gather_step. rewrite py_in_corpus. cbn [rbind].
  unfold tables_of_file in *. unfold py_dict_getitem.
  rewrite corpus_value_lookup.
  destruct (corpus_lookup f c) as [ts|]; simpl option_map; cbn iota.
  2:{ simpl. now rewrite app_nil_r. }
  cbn [rbind py_iter]. revert acc.
  induction ts as [|t ts IH]; intros acc; simpl.
  - now rewrite app_nil_r.
  - rewrite Hrow by now left.
    destruct (keep t); simpl.
    + rewrite IH by (intros; apply Hrow; now right).
      now rewrite <- app_assoc.
    + apply IH. intros; apply Hrow; now right.
Qed.

Lemma gather_row_typed rts t acc :
  gather_row (str_list rts) acc (descriptor_value t)
  = Ok (if name_matches rts t then acc ++ [descriptor_value t] else acc)%list.
Proof.
  unfold gather_row.
  change (py_getitem_str (descriptor_value t) "table_name")
    with (Ok (PyStr (td_name t))).
  cbn [rbind str_list py_iter]. rewrite any_contains. cbn [rbind].
  change (existsb (str_contains (td_name t)) rts) with (name_matches rts t).
  now destruct (name_matches rts t).
Qed.

End Steps.

Lemma str_length_app s t :
  String.length (s ++ t) = String.length s + String.length t.
Proof. induction s as [|c s IH]; simpl; [reflexivity | now rewrite IH]. Qed.

Lemma str_contains_length needle hay :
  str_contains needle hay = true -> String.length needle <= String.length hay.
Proof.
  intros Hc. apply str_contains_spec in Hc as (pre & post & ->).
  rewrite !str_length_app. lia.
Qed.

Lemma chars_singletons s : chars s = map PyStr (singletons s).
Proof. induction s as [|c s IH]; simpl; [reflexivity | now rewrite IH]. Qed.

Lemma singletons_length s x : In x (singletons s) -> String.length x = 1.
Proof.
  induction s as [|c s IH]; simpl; [intros []|].
  intros [<-|Hx]; [reflexivity | now apply IH].
Qed.

Lemma str_entries_strs l : str_entries (map PyStr l) = l.
Proof. induction l as [|x l IH]; simpl; [reflexivity | now rewrite IH]. Qed.

Section Selections.
Context `{Runtime}.

(** The extractor on a list of lookup-able values and a corpus of the
    data model. *)
Lemma extract_hashable c l :
  forallb hashable l = true ->
  forall acc,
    for_each l (extract_step (corpus_value c)) acc
    = Ok (acc ++ flat_map (file_strings c) (str_entries l))%list.
Proof.
  induction l as [|v l IH]; intros Hl acc; simpl.
  - now rewrite app_nil_r.
  - simpl in Hl. apply andb_true_iff in Hl as [Hv Hl].
    destruct (is_str v) eqn:Es.
    + destruct v; try discriminate. rewrite extract_step_str. simpl.
      rewrite (IH Hl). now rewrite <- app_assoc.
    + rewrite (extract_step_scalar _ _ _ Hv Es). simpl.
      rewrite (IH Hl). now destruct v.
Qed.

Lemma gather_hashable c rts l :
  forallb hashable l = true ->
  forall acc,
    for_each l (gather_step (str_list rts) (corpus_value c)) acc
    = Ok (acc ++ map descriptor_value
                   (flat_map (file_matches c rts) (str_entries l)))%list.
Proof.
  induction l as [|v l IH]; intros Hl acc; simpl.
  - now rewrite app_nil_r.
  - simpl in Hl. apply andb_true_iff in Hl as [Hv Hl].
    destruct (is_str v) eqn:Es.
    + destruct v; try discriminate.
      rewrite (gather_step_rows _ c s acc (name_matches rts))
        by (intros; apply gather_row_typed).
      simpl. rewrite (IH Hl). fold (file_matches c rts s).
      now rewrite map_app, <- app_assoc.
    + rewrite (gather_step_scalar _ _ _ _ Hv Es). simpl.
      rewrite (IH Hl). now destruct v.
Qed.

(** The gatherer on a list of file names, for any relevant-table value
    for which the rows of these files behave as [keep] says. *)
Lemma gather_files rt c (keep : TableDescriptor -> bool) fns :
  (forall f t acc',
      In f fns -> In t (tables_of_file c f) ->
      gather_row rt acc' (descriptor_value t)
      = Ok (if keep t then acc' ++ [descriptor_value t] else acc')%list) ->
  forall acc,
    for_each (map PyStr fns) (gather_step rt (corpus_value c)) acc
    = Ok (acc ++ map descriptor_value
                   (flat_map (fun f => filter keep (tables_of_file c f)) fns))
         %list.
Proof.
  induction fns as [|f fns IH]; intros Hrow acc; simpl.
  - now rewrite app_nil_r.
  - rewrite (gather_step_rows rt c f acc keep)
      by (intros; apply (Hrow f); [now left | assumption]).
    simpl.
    rewrite IH
      by (intros f' ? ? ? ?; apply (Hrow f'); [now right | assumption]).
    now rewrite map_app, <- app_assoc.
Qed.

Lemma gather_row_bare s t acc :
  gather_row (PyStr s) acc (descriptor_value t)
  = Ok (if name_matches (singletons s) t
        then acc ++ [descriptor_value t] else acc)%list.
Proof.
  rewrite <- gather_row_typed. unfold gather_row.
  cbn [py_iter str_list]. now rewrite chars_singletons.
Qed.

Lemma step_unhashable {S} (step : S -> pyval -> result S) pre x post :
  (forall v acc, hashable v = true -> exists acc', step acc v = Ok acc') ->
  (forall acc, step acc x = Raise TypeError) ->
  forallb hashable pre = true ->
  forall acc, for_each (pre ++ x :: post) step acc = Raise TypeError.
Proof.
  intros Hok Hbad. induction pre as [|v pre IH]; intros Hpre acc; simpl.
  - now rewrite Hbad.
  - simpl in Hpre. apply andb_true_iff in Hpre as [Hv Hpre].
    destruct (Hok v acc Hv) as [acc' ->]. simpl. now apply IH.
Qed.

End Selections.

(** X4. Entries of the selected-file list that are numbers, booleans or
    null are skipped like unknown file names: only its strings count.  A
    list or an object among the entries makes both functions raise
    [TypeError] when the loop reaches it. *)
Theorem selection_entries_of_other_types `{Runtime} (c : corpus)
  (rts : list string) (l : list pyval) :
  (forallb hashable l = true ->
   get_tables_from_files (PyList l) (corpus_value c)
   = Ok (flat_map (file_strings c) (str_entries l))
   /\ grab_table_info (str_list rts) (PyList l) (corpus_value c)
      = Ok (map descriptor_value
              (flat_map (file_matches c rts) (str_entries l))))
  /\ (forall pre x post,
        l = (pre ++ x :: post)%list ->
        forallb hashable pre = true -> hashable x = false ->
        get_tables_from_files (PyList l) (corpus_value c) = Raise TypeError
        /\ grab_table_info (str_list rts) (PyList l) (corpus_value c)
           = Raise TypeError).
Proof.
  split.
  - intros Hl. rewrite get_tables_from_files_steps, grab_table_info_steps.
    cbn [py_iter rbind]. split.
    + apply (extract_hashable c l Hl []).
    + apply (gather_hashable c rts l Hl []).
  - intros pre x post -> Hpre Hx.
    rewrite get_tables_from_files_steps, grab_table_info_steps.
    cbn [py_iter rbind]. split.
    + apply step_unhashable; try assumption.
      * intros v acc Hv. destruct (is_str v) eqn:Es.
        -- destruct v; try discriminate. rewrite extract_step_str. eauto.
        -- rewrite (extract_step_scalar _ _ _ Hv Es). eauto.
      * intros acc. now apply extract_step_unhashable.
    + apply step_unhashable; try assumption.
      * intros v acc Hv. destruct (is_str v) eqn:Es.
        -- destruct v; try discriminate.
           rewrite (gather_step_rows _ c s acc (name_matches rts))
             by (intros; apply gather_row_typed).
           eauto.
        -- rewrite (gather_step_scalar _ _ _ _ Hv Es). eauto.
      * intros acc. now apply gather_step_unhashable.
Qed.

Lemma selection_entries_of_other_types_witness :
  @get_tables_from_files (example_runtime [] [])
    (PyList [PyInt 7; PyStr "a.json"; PyNone]) (corpus_value orders_corpus)
  = Ok ["orders : sales orders"]
  /\ @get_tables_from_files (example_runtime [] [])
       (PyList [PyStr "a.json"; PyList [PyStr "a.json"]])
       (corpus_value orders_corpus)
     = Raise TypeError.
Proof.
  split.
  - exact (proj1 (proj1 (@selection_entries_of_other_types
                           (example_runtime [] []) orders_corpus []
                           [PyInt 7; PyStr "a.json"; PyNone]) eq_refl)).
  - exact (proj1 (proj2 (@selection_entries_of_other_types
                           (example_runtime [] []) orders_corpus []
                           [PyStr "a.json"; PyList [PyStr "a.json"]])
                    [PyStr "a.json"] (PyList [PyStr "a.json"]) []
                    eq_refl eq_refl eq_refl)).
Defined.

(** X5. When a selector returns a bare string where a list is expected,
    the string is taken character by character: a file named by the
    string is not extracted unless some file name is a single character,
    and no table whose name has two or more characters is gathered.
    Neither function raises. *)
Theorem bare_string_selection `{Runtime} (c : corpus) (s : string)
  (fns : list string) :
  get_tables_from_files (PyStr s) (corpus_value c)
  = Ok (flat_map (file_strings c) (singletons s))
  /\ grab_table_info (PyStr s) (str_list fns) (corpus_value c)
     = Ok (map descriptor_value
             (flat_map (file_matches c (singletons s)) fns))
  /\ ((forall f ts, In (f, ts) c -> String.length f <> 1) ->
      get_tables_from_files (PyStr s) (corpus_value c) = Ok [])
  /\ ((forall f ts t, In (f, ts) c -> In t ts ->
                      2 <= String.length (td_name t)) ->
      grab_table_info (PyStr s) (str_list fns) (corpus_value c) = Ok []).
Proof.
  assert (Hfiles : get_tables_from_files (PyStr s) (corpus_value c)
                   = Ok (flat_map (file_strings c) (singletons s))).
  { rewrite get_tables_from_files_steps. cbn [py_iter rbind].
    rewrite chars_singletons. apply get_tables_from_files_typed. }
  assert (Htables : grab_table_info (PyStr s) (str_list fns) (corpus_value c)
                    = Ok (map descriptor_value
                            (flat_map (file_matches c (singletons s)) fns))).
  { rewrite grab_table_info_steps. cbn [py_iter rbind str_list].
    apply (gather_files (PyStr s) c (name_matches (singletons s)) fns).
    intros. apply gather_row_bare. }
  split; [exact Hfiles|]. split; [exact Htables|]. split.
  - intros Hkeys. rewrite Hfiles. f_equal.
    rewrite (flat_map_same _ (fun _ => [])).
    + apply flat_map_nothing.
    + intros x Hx. unfold file_strings, tables_of_file.
      destruct (corpus_lookup x c) as [ts|] eqn:E; [|reflexivity].
      apply corpus_lookup_in in E. apply singletons_length in Hx.
      now destruct (Hkeys _ _ E).
  - intros Hnames. rewrite Htables. f_equal.
    rewrite (flat_map_same _ (fun _ => [])).
    + now rewrite flat_map_nothing.
    + intros f _. unfold file_matches, tables_of_file.
      destruct (corpus_lookup f c) as [ts|] eqn:E; [|reflexivity].
      apply corpus_lookup_in in E. apply filter_none. intros t Ht.
      unfold name_matches.
      destruct (existsb (str_contains (td_name t)) (singletons s)) eqn:Ex;
        [|reflexivity].
      apply existsb_exists in Ex as (x & Hx & Hc).
      apply str_contains_length in Hc. apply singletons_length in Hx.
      specialize (Hnames _ _ _ E Ht). lia.
Qed.

Lemma bare_string_selection_witness :
  @get_tables_from_files (example_runtime [] []) (PyStr "a.json")
    (corpus_value orders_corpus)
  = Ok []
  /\ @grab_table_info (example_runtime [] []) (PyStr "orders")
       (str_list ["a.json"]) (corpus_value orders_corpus)
     = Ok [].
Proof.
  pose proof (@bare_string_selection (example_runtime [] []) orders_corpus)
    as Hbare.
  split.
  - apply (proj1 (proj2 (proj2 (Hbare "a.json" [])))).
    intros f ts [[= <- <-]|[]]. discriminate.
  - apply (proj2 (proj2 (proj2 (Hbare "orders" ["a.json"])))).
    intros f ts t [[= <- <-]|[]] [<-|[]]. simpl. lia.
Defined.

Section Lazy.
Context `{Runtime}.

Lemma any_contains_prefix name rts junk :
  existsb (str_contains name) rts = true ->
  py_any (fun rt => py_contains rt (PyStr name)) (map PyStr rts ++ junk)
  = Ok true.
Proof.
  induction rts as [|rt rts IH]; simpl; [discriminate|].
  destruct (str_contains name rt); simpl; [reflexivity | exact IH].
Qed.

Lemma gather_row_junk rts junk t acc :
  name_matches rts t = true ->
  gather_row (PyList (map PyStr rts ++ junk)) acc (descriptor_value t)
  = Ok (acc ++ [descriptor_value t])%list.
Proof.
  intros Hm. unfold gather_row.
  change (py_getitem_str (descriptor_value t) "table_name")
    with (Ok (PyStr (td_name t))).
  cbn [rbind py_iter]. now rewrite (any_contains_prefix _ _ _ Hm).
Qed.

Lemma gather_row_type_error rt t acc :
  not_a_container rt = true
  \/ (exists x rest, rt = PyList (x :: rest) /\ not_a_container x = true) ->
  gather_row rt acc (descriptor_value t) = Raise TypeError.
Proof.
  unfold gather_row.
  change (py_getitem_str (descriptor_value t) "table_name")
    with (Ok (PyStr (td_name t))).
  cbn [rbind].
  intros [Hrt|(x & rest & -> & Hx)].
  - destruct rt; try discriminate; reflexivity.
  - cbn [py_iter rbind py_any]. destruct x; try discriminate; reflexivity.
Qed.

End Lazy.

(** X6. The relevant-table value is only looked at when a table of a
    selected file is reached, and only up to the first entry that contains
    the table name: with no table to visit any value gives the empty
    result; entries after the matching ones may be of any type; but a
    value that is not iterable, or a list that starts with a number, a
    boolean or null, raises [TypeError] at the first table. *)
Theorem relevant_tables_examined_lazily `{Runtime} (c : corpus)
  (fns : list string) :
  (forall relevant_tables,
      (forall f, In f fns -> tables_of_file c f = []) ->
      grab_table_info relevant_tables (str_list fns) (corpus_value c) = Ok [])
  /\ (forall rts junk,
        (forall f t, In f fns -> In t (tables_of_file c f) ->
                     name_matches rts t = true) ->
        grab_table_info (PyList (map PyStr rts ++ junk)) (str_list fns)
          (corpus_value c)
        = Ok (map descriptor_value (flat_map (tables_of_file c) fns)))
  /\ (forall relevant_tables f t ts,
        tables_of_file c f = t :: ts ->
        not_a_container relevant_tables = true
        \/ (exists x rest,
               relevant_tables = PyList (x :: rest)
               /\ not_a_container x = true) ->
        grab_table_info relevant_tables (str_list (f :: fns)) (corpus_value c)
        = Raise TypeError).
Proof.
  split; [|split].
  - intros rt Hempty. rewrite grab_table_info_steps.
    cbn [str_list py_iter rbind].
    rewrite (gather_files rt c (fun _ => true) fns).
    + f_equal. rewrite (flat_map_same _ (fun _ => [])).
      * now rewrite flat_map_nothing.
      * intros f Hf. now rewrite (Hempty f Hf).
    + intros f t acc Hf Ht. rewrite (Hempty f Hf) in Ht. destruct Ht.
  - intros rts junk Hall. rewrite grab_table_info_steps.
    cbn [str_list py_iter rbind].
    rewrite (gather_files _ c (fun _ => true) fns).
    + cbn [app]. do 2 f_equal. apply flat_map_same. intros f _.
      now apply filter_all.
    + intros f t acc Hf Ht. apply gather_row_junk. exact (Hall f t Hf Ht).
  - intros rt f t ts Hf Hrt. rewrite grab_table_info_steps.
    cbn [str_list py_iter rbind map for_each].
    unfold gather_step at 1. rewrite py_in_corpus.
    unfold tables_of_file in Hf. unfold py_dict_getitem.
    rewrite corpus_value_lookup.
    destruct (corpus_lookup f c) as [ts'|]; [|discriminate]. subst ts'.
    cbn [rbind option_map py_iter map for_each].
    now rewrite (gather_row_type_error rt t [] Hrt).
Qed.

Lemma relevant_tables_examined_lazily_witness :
  @grab_table_info (example_runtime [] []) PyNone (str_list ["b.json"])
    (corpus_value orders_corpus)
  = Ok []
  /\ @grab_table_info (example_runtime [] [])
       (PyList (map PyStr ["orders"] ++ [PyInt 5])) (str_list ["a.json"])
       (corpus_value orders_corpus)
     = Ok [descriptor_value orders_descriptor]
  /\ @grab_table_info (example_runtime [] [])
       (PyList [PyInt 5; PyStr "orders"]) (str_list ["a.json"])
       (corpus_value orders_corpus)
     = Raise TypeError.
Proof.
  split; [|split].
  - apply (proj1 (@relevant_tables_examined_lazily (example_runtime [] [])
                    orders_corpus ["b.json"])).
    intros f [<-|[]]. reflexivity.
  - apply (proj1 (proj2 (@relevant_tables_examined_lazily
                           (example_runtime [] []) orders_corpus ["a.json"]))
             ["orders"] [PyInt 5]).
    intros f t [<-|[]] [<-|[]]. reflexivity.
  - apply (proj2 (proj2 (@relevant_tables_examined_lazily
                           (example_runtime [] []) orders_corpus []))
             (PyList [PyInt 5; PyStr "orders"]) "a.json"
             orders_descriptor []); [reflexivity|].
    right. exists (PyInt 5), [PyStr "orders"]. now split.
Defined.

Lemma table_string_contains_name t :
  str_contains (td_name t) (table_string t) = true.
Proof.
  apply str_contains_spec. exists "", (" : " ++ td_description t).
  reflexivity.
Qed.

(** X7. Echo: when the relevant-table list is the list of strings the
    extractor returned for the same selection (what the table selector
    was offered), the gatherer returns every descriptor of the selected
    files, in the same order. *)
Theorem echoed_table_strings_gather_all `{Runtime} (c : corpus)
  (fns : list string) :
  exists strings,
    get_tables_from_files (str_list fns) (corpus_value c) = Ok strings
    /\ grab_table_info (str_list strings) (str_list fns) (corpus_value c)
       = Ok (map descriptor_value (flat_map (tables_of_file c) fns))
    /\ List.length strings = List.length (flat_map (tables_of_file c) fns).
Proof.
  exists (flat_map (file_strings c) fns).
  split; [apply get_tables_from_files_typed|]. split.
  - rewrite grab_table_info_typed. do 2 f_equal. apply flat_map_same.
    intros f Hf. unfold file_matches. apply filter_all. intros t Ht.
    unfold name_matches. apply existsb_exists. exists (table_string t).
    split; [|apply table_string_contains_name].
    apply in_flat_map. exists f. split; [exact Hf|].
    unfold file_strings. now apply in_map.
  - unfold file_strings. rewrite <- map_flat_map. apply length_map.
Qed.

(** X8. For one selection the gatherer visits the tables the extractor
    lists, in the same order, and keeps those that match: its result is
    never longer than the extractor's, an empty relevant-table list gives
    an empty result, and further relevant-table entries never remove a
    descriptor. *)
Theorem gatherer_filters_extracted_tables `{Runtime} (c : corpus)
  (fns rts more : list string) :
  let visited := flat_map (tables_of_file c) fns in
  get_tables_from_files (str_list fns) (corpus_value c)
  = Ok (map table_string visited)
  /\ grab_table_info (str_list rts) (str_list fns) (corpus_value c)
     = Ok (map descriptor_value (filter (name_matches rts) visited))
  /\ List.length (filter (name_matches rts) visited) <= List.length visited
  /\ grab_table_info (str_list []) (str_list fns) (corpus_value c) = Ok []
  /\ incl (filter (name_matches rts) visited)
       (filter (name_matches (rts ++ more)) visited).
Proof.
  intros visited. split; [|split; [|split; [|split]]].
  - rewrite get_tables_from_files_typed. unfold file_strings, visited.
    now rewrite <- map_flat_map.
  - rewrite grab_table_info_typed. unfold file_matches, visited.
    now rewrite filter_flat_map.
  - apply filter_length_le.
  - rewrite grab_table_info_typed. f_equal.
    rewrite (flat_map_same _ (fun _ => []));
      [now rewrite flat_map_nothing|].
    intros f _. unfold file_matches. now apply filter_none.
  - intros t Ht. apply filter_In in Ht as [Ht Hm]. apply filter_In.
    split; [exact Ht|]. unfold name_matches in *.
    rewrite existsb_app, Hm. reflexivity.
Qed.

(* ================================================================= *)
(** ** Results come from the corpus *)

Lemma for_each_preserves {A S} (P : S -> Prop) (xs : list A)
  (body : S -> A -> result S) :
  (forall acc x acc', In x xs -> P acc -> body acc x = Ok acc' -> P acc') ->
  forall acc r, P acc -> for_each xs body acc = Ok r -> P r.
Proof.
  induction xs as [|x xs IH]; intros Hbody acc r Hacc; simpl.
  - now intros [= <-].
  - destruct (body acc x) as [acc'|] eqn:E; [|discriminate]. simpl.
    apply IH.
    + intros a y a' Hy. apply Hbody. now right.
    + exact (Hbody acc x acc' (or_introl eq_refl) Hacc E).
Qed.

Lemma corpus_tables_in data f ts :
  dict_lookup f data = Some (PyList ts) -> incl ts (corpus_tables data).
Proof.
  intros Hl t Ht. apply dict_lookup_in in Hl.
  unfold corpus_tables. apply in_flat_map. exists (f, PyList ts). now split.
Qed.

Section FromCorpus.
Context `{Runtime}.

Lemma present_file_tables data k :
  well_formed_data data ->
  py_in_dict k data = Ok true ->
  exists ts, py_dict_getitem data k = Ok (PyList ts)
             /\ Forall has_three_fields ts
             /\ incl ts (corpus_tables data).
Proof.
  intros Hwf. destruct k; try discriminate. simpl. unfold dict_mem.
  destruct (dict_lookup s data) as [v|] eqn:E; [|discriminate].
  intros _. pose proof (dict_lookup_in _ _ _ E) as Hin.
  unfold well_formed_data in Hwf. rewrite Forall_forall in Hwf.
  destruct (Hwf _ Hin) as (ts & Hv & Hts). simpl in Hv. subst v.
  exists ts. repeat split; try assumption.
  exact (corpus_tables_in _ _ _ E).
Qed.

Lemma gather_row_result rt acc t acc' :
  has_three_fields t ->
  gather_row rt acc t = Ok acc' ->
  acc' = acc \/ acc' = (acc ++ [t])%list.
Proof.
  intros (n & d & c & ->). unfold gather_row.
  change (py_getitem_str (PyDict _) "table_name") with (Ok n).
  cbn [rbind].
  destruct (py_iter rt) as [rts|]; [|discriminate]. cbn [rbind].
  destruct (py_any _ rts) as [[]|]; [| |discriminate]; cbn [rbind].
  - intros [= <-]. now right.
  - intros [= <-]. now left.
Qed.

Lemma extract_row_result acc t :
  has_three_fields t ->
  exists n d c,
    t = PyDict [("table_name", n); ("table_description", d); ("columns", c)]
    /\ extract_row acc t = Ok (acc ++ [table_text n d])%list.
Proof. intros (n & d & c & ->). now exists n, d, c. Qed.

Lemma gathered_from_corpus data rt fns out :
  well_formed_data data ->
  grab_table_info rt fns data = Ok out -> incl out (corpus_tables data).
Proof.
  intros Hwf. rewrite grab_table_info_steps.
  destruct (py_iter fns) as [l|]; [|discriminate]. cbn [rbind].
  apply (for_each_preserves (fun acc => incl acc (corpus_tables data)));
    [|intros ? []].
  intros acc k acc' _ Hacc. unfold gather_step.
  destruct (py_in_dict k data) as [[]|] eqn:Ep; [| |discriminate];
    cbn [rbind]; [|now intros [= <-]].
  destruct (present_file_tables _ _ Hwf Ep) as (ts & -> & Hts & Hin).
  cbn [rbind py_iter].
  apply (for_each_preserves (fun acc => incl acc (corpus_tables data)));
    [|exact Hacc].
  intros a t a' Ht Ha Hrow. rewrite Forall_forall in Hts.
  destruct (gather_row_result _ _ _ _ (Hts t Ht) Hrow) as [->| ->];
    [exact Ha|].
  apply incl_app; [exact Ha|]. intros x [<-|[]]. now apply Hin.
Qed.

Lemma extracted_from_corpus data fns out :
  well_formed_data data ->
  get_tables_from_files fns data = Ok out ->
  Forall (is_string_of data) out.
Proof.
  intros Hwf. rewrite get_tables_from_files_steps.
  destruct (py_iter fns) as [l|]; [|discriminate]. cbn [rbind].
  apply (for_each_preserves (Forall (is_string_of data))); [|constructor].
  intros acc k acc' _ Hacc. unfold extract_step.
  destruct (py_in_dict k data) as [[]|] eqn:Ep; [| |discriminate];
    cbn [rbind]; [|now intros [= <-]].
  destruct (present_file_tables _ _ Hwf Ep) as (ts & -> & Hts & Hin).
  cbn [rbind py_iter].
  apply (for_each_preserves (Forall (is_string_of data))); [|exact Hacc].
  intros a t a' Ht Ha. rewrite Forall_forall in Hts.
  destruct (extract_row_result a t (Hts t Ht)) as (n & d & c & -> & ->).
  intros [= <-]. apply Forall_app. split; [exact Ha|].
  constructor; [|constructor]. exists n, d, c. split; [|reflexivity].
  now apply Hin.
Qed.

End FromCorpus.

(** X9. On a loaded corpus, whatever the selected-file and
    relevant-table values are, a result of the gatherer holds only tables
    of the corpus, unchanged, and every string of the extractor is the
    "name : description" of a table of the corpus: a selection cannot
    bring in a table the corpus does not have. *)
Theorem results_come_from_the_corpus `{Runtime} (folder_path : string)
  (data : pydict) :
  get_table_clusters folder_path = Ok data ->
  (forall relevant_tables file_names out,
      grab_table_info relevant_tables file_names data = Ok out ->
      forall t, In t out -> In t (corpus_tables data))
  /\ (forall file_names out,
        get_tables_from_files file_names data = Ok out ->
        forall s, In s out ->
          exists n d c,
            In (PyDict [("table_name", n); ("table_description", d);
                        ("columns", c)])
               (corpus_tables data)
            /\ s = table_text n d).
Proof.
  intros Hload. apply get_table_clusters_well_formed in Hload as Hwf.
  split.
  - intros rt fns out Hout. exact (gathered_from_corpus _ _ _ _ Hwf Hout).
  - intros fns out Hout s Hs.
    pose proof (extracted_from_corpus _ _ _ Hwf Hout) as Hall.
    rewrite Forall_forall in Hall. exact (Hall s Hs).
Qed.

Lemma results_come_from_the_corpus_witness :
  @get_table_clusters (example_runtime orders_files []) default_folder_path
  = Ok (corpus_value orders_corpus)
  /\ forall t,
       In t [descriptor_value orders_descriptor] ->
       In t (corpus_tables (corpus_value orders_corpus)).
Proof.
  split; [reflexivity|].
  exact (proj1 (@results_come_from_the_corpus
                  (example_runtime orders_files []) default_folder_path
                  (corpus_value orders_corpus) eq_refl)
           (str_list ["orders"]) (str_list ["a.json"; "zz.json"])
           [descriptor_value orders_descriptor] eq_refl).
Defined.

(** X10. In the bundle of a run that completes, whatever the chat
    service answered: the file names are the keys of the corpus, without
    repetition; every column info is a table of the corpus; every table
    string is the "name : description" of a table of the corpus. *)
Theorem bundle_is_consistent `{Runtime} (api_key user_prompt : string)
  (w w' : world) (b : result_bundle) :
  run_full_process api_key user_prompt w = (Ok b, w') ->
  file_names b = dict_keys (all_data b)
  /\ NoDup (file_names b)
  /\ (forall t, In t (columns_info b) -> In t (corpus_tables (all_data b)))
  /\ (forall s, In s (tables b) ->
        exists n d c,
          In (PyDict [("table_name", n); ("table_description", d);
                      ("columns", c)])
             (corpus_tables (all_data b))
          /\ s = table_text n d).
Proof.
  intros Hrun.
  destruct (run_full_process_ok _ _ _ _ _ Hrun)
    as (w1 & w2 & Hload & Hnames & _ & Hstrs & _ & Hinfo & _).
  apply get_table_clusters_well_formed in Hload as Hwf.
  split; [exact Hnames|]. split; [|split].
  - rewrite Hnames. unfold get_table_clusters in Hload.
    rewrite (loaded_keys _ _ _ Hload). apply fold_add_key_nodup. constructor.
  - exact (gathered_from_corpus _ _ _ _ Hwf Hinfo).
  - intros s Hs. pose proof (extracted_from_corpus _ _ _ Hwf Hstrs) as Hall.
    rewrite Forall_forall in Hall. exact (Hall s Hs).
Qed.

Lemma bundle_is_consistent_witness :
  @run_full_process (example_runtime orders_files scenario_answers)
    "key" "sales" empty_world
  = (Ok scenario_bundle,
     snd (@run_full_process (example_runtime orders_files scenario_answers)
            "key" "sales" empty_world))
  /\ NoDup (file_names scenario_bundle)
  /\ forall t, In t (columns_info scenario_bundle) ->
               In t (corpus_tables (all_data scenario_bundle)).
Proof.
  assert (Hrun : @run_full_process
                   (example_runtime orders_files scenario_answers)
                   "key" "sales" empty_world
                 = (Ok scenario_bundle,
                    snd (@run_full_process
                           (example_runtime orders_files scenario_answers)
                           "key" "sales" empty_world)))
    by (vm_compute; reflexivity).
  split; [exact Hrun|].
  pose proof (@bundle_is_consistent
                (example_runtime orders_files scenario_answers)
                "key" "sales" empty_world _ scenario_bundle Hrun)
    as (_ & Hnodup & Hinfo & _).
  split; [exact Hnodup | exact Hinfo].
Defined.

(* ================================================================= *)
(** ** The requests of a run *)

(** X11. A run makes at most three requests and never repeats one: the
    requests it has made are the first ones of the sequence file selector
    (model gpt-4o-mini), table selector, SQL synthesizer (model gpt-4o); a
    run that completes has made exactly these three, each built from the
    result of the stage before; a run whose loader fails has made none and
    printed nothing. *)
Theorem run_makes_at_most_three_requests `{Runtime}
  (api_key user_prompt : string) (w : world) :
  let run := run_full_process api_key user_prompt w in
  exists reqs,
    requests (snd run) = (requests w ++ reqs)%list
    /\ (exists rest, (map fst reqs ++ rest)%list = stage_models)
    /\ (forall b,
          fst run = Ok b ->
          reqs = [files_request (file_names b) user_prompt;
                  tables_request (tables b) user_prompt;
                  sql_request (relevant_tables b) user_prompt
                    (columns_info b)])
    /\ (forall e,
          get_table_clusters default_folder_path = Raise e ->
          run = (Raise e, w)).
Proof.
  intros run. unfold run, run_full_process, bind, lift, ret.
  destruct (get_table_clusters default_folder_path) as [data|e0].
  2:{ exists []. rewrite app_nil_r. cbn [fst snd].
      repeat split; [now exists stage_models | discriminate |].
      now intros e [= ->]. }
  set (client := create_openai_client api_key).
  set (r1 := files_request (dict_keys data) user_prompt).
  rewrite get_relevant_files_run. cbn zeta. fold r1.
  destruct (client (requests w) r1) as [text1|e1].
  2:{ exists [r1]. cbn [fst snd requests].
      repeat split; [now exists ["gpt-4o"; "gpt-4o"] | discriminate
                     | discriminate]. }
  destruct (parse_selection "relevant_files" text1) as [rf|e1].
  2:{ exists [r1]. cbn [fst snd requests].
      repeat split; [now exists ["gpt-4o"; "gpt-4o"] | discriminate
                     | discriminate]. }
  destruct (get_tables_from_files rf data) as [strs|e2].
  2:{ exists [r1]. cbn [fst snd requests].
      repeat split; [now exists ["gpt-4o"; "gpt-4o"] | discriminate
                     | discriminate]. }
  set (r2 := tables_request strs user_prompt).
  rewrite pick_relevant_tables_run. cbn zeta. cbn [requests]. fold r2.
  destruct (client (requests w ++ [r1])%list r2) as [text2|e2].
  2:{ exists [r1; r2]. cbn [fst snd requests]. rewrite <- app_assoc.
      repeat split; [now exists ["gpt-4o"] | discriminate | discriminate]. }
  destruct (parse_selection "relevant_tables" text2) as [rt|e2].
  2:{ exists [r1; r2]. cbn [fst snd requests]. rewrite <- app_assoc.
      repeat split; [now exists ["gpt-4o"] | discriminate | discriminate]. }
  destruct (grab_table_info rt rf data) as [info|e3].
  2:{ exists [r1; r2]. cbn [fst snd requests]. rewrite <- app_assoc.
      repeat split; [now exists ["gpt-4o"] | discriminate | discriminate]. }
  set (r3 := sql_request rt user_prompt info).
  rewrite generate_sql_run. cbn zeta. cbn [requests]. fold r3.
  exists [r1; r2; r3].
  destruct (client ((requests w ++ [r1]) ++ [r2])%list r3) as [sql|e3];
    cbn [fst snd requests]; rewrite <- !app_assoc;
    (repeat split; [now exists [] | | discriminate]).
  - now intros b [= <-].
  - discriminate.
Qed.

Lemma run_makes_at_most_three_requests_witness :
  exists reqs,
    requests
      (snd (@run_full_process (example_runtime orders_files scenario_answers)
              "key" "sales" empty_world))
    = ([] ++ reqs)%list
    /\ List.length reqs = 3.
Proof.
  destruct (@run_makes_at_most_three_requests
              (example_runtime orders_files scenario_answers)
              "key" "sales" empty_world) as (reqs & Hreqs & _ & Hok & _).
  exists reqs. split; [exact Hreqs|].
  rewrite (Hok scenario_bundle); [reflexivity|].
  vm_compute. reflexivity.
Defined.

(** X12. The run has no early exit: when the file selector names only
    files the corpus does not have (or none), the table selector is still
    asked, about an empty list of tables, and whatever list of names it
    returns, the SQL synthesizer is asked with empty column info; the
    bundle has no table string and no column info. *)
Theorem unknown_files_run_to_the_end `{Runtime} (api_key user_prompt : string)
  (c : corpus) (unknown rts : list string) (sql : string)
  (w w1 w2 w3 : world) :
  let client := create_openai_client api_key in
  get_table_clusters default_folder_path = Ok (corpus_value c) ->
  (forall f, In f unknown -> corpus_lookup f c = None) ->
  get_relevant_files client (dict_keys (corpus_value c)) user_prompt w
  = (Ok (str_list unknown), w1) ->
  pick_relevant_tables client [] user_prompt w1 = (Ok (str_list rts), w2) ->
  generate_sql client (str_list rts) user_prompt [] w2 = (Ok sql, w3) ->
  run_full_process api_key user_prompt w
  = (Ok {| all_data := corpus_value c;
           file_names := dict_keys (corpus_value c);
           relevant_files := str_list unknown;
           tables := [];
           relevant_tables := str_list rts;
           columns_info := [];
           final_sql_query := sql |}, w3).
Proof.
  intros client Hload Hunknown Hfiles Htables Hsql.
  assert (Hnone : forall {B} (g : string -> list B),
             (forall f, g f = match corpus_lookup f c with
                              | Some ts => g f
                              | None => []
                              end) ->
             flat_map g unknown = []).
  { intros B g Hg. rewrite (flat_map_same _ (fun _ => []));
      [apply flat_map_nothing|].
    intros f Hf. rewrite Hg, (Hunknown f Hf). reflexivity. }
  apply (run_full_process_stages api_key user_prompt w (corpus_value c)
           (str_list unknown) w1 [] (str_list rts) w2 [] sql w3);
    try assumption.
  - rewrite get_tables_from_files_typed. f_equal. apply Hnone.
    intros f. unfold file_strings, tables_of_file.
    now destruct (corpus_lookup f c).
  - rewrite grab_table_info_typed. f_equal.
    rewrite (Hnone _ (file_matches c rts)); [reflexivity|].
    intros f. unfold file_matches, tables_of_file.
    now destruct (corpus_lookup f c).
Qed.

Lemma unknown_files_run_to_the_end_witness :
  fst (@run_full_process (more_runtime orders_files unknown_answers)
         "key" "sales" empty_world)
  = Ok {| all_data := corpus_value orders_corpus;
          file_names := ["a.json"];
          relevant_files := str_list ["zz.json"];
          tables := [];
          relevant_tables := str_list ["orders"];
          columns_info := [];
          final_sql_query := "SELECT 1;" |}.
Proof.
  set (R := more_runtime orders_files unknown_answers).
  set (w1 := snd (@get_relevant_files R (example_client unknown_answers)
                    ["a.json"] "sales" empty_world)).
  set (w2 := snd (@pick_relevant_tables R (example_client unknown_answers)
                    [] "sales" w1)).
  set (w3 := snd (@generate_sql R (example_client unknown_answers)
                    (str_list ["orders"]) "sales" [] w2)).
  rewrite (@unknown_files_run_to_the_end R "key" "sales" orders_corpus
             ["zz.json"] ["orders"] "SELECT 1;" empty_world w1 w2 w3).
  - reflexivity.
  - reflexivity.
  - intros f [<-|[]]. reflexivity.
  - vm_compute. reflexivity.
  - vm_compute. reflexivity.
  - vm_compute. reflexivity.
Defined.

(* ================================================================= *)
(** ** More on fence stripping *)

Lemma replace_from_missing old new s :
  str_contains old s = false -> replace_from old new 0 s = s.
Proof.
  induction s as [|c s IH]; [reflexivity|].
  cbn [str_contains replace_from]. intros Hc.
  apply orb_false_iff in Hc as [Hs Hc]. rewrite Hs. now rewrite IH.
Qed.

Lemma json_fence_has_fence s :
  str_contains "```" s = false -> str_contains "```json" s = false.
Proof.
  intros Hf. destruct (str_contains "```json" s) eqn:E; [|reflexivity].
  apply str_contains_spec in E as (pre & post & ->).
  assert (str_contains "```" (pre ++ "```json" ++ post) = true);
    [|congruence].
  apply str_contains_spec. now exists pre, ("json" ++ post).
Qed.

Lemma rstrip_idempotent s : str_rstrip (str_rstrip s) = str_rstrip s.
Proof.
  induction s as [|c s IH]; [reflexivity|]. simpl.
  destruct (str_rstrip s) as [|r rs] eqn:E.
  - destruct (is_space c) eqn:Ec; simpl; [reflexivity | now rewrite Ec].
  - cbn [str_rstrip]. cbn [str_rstrip] in IH. now rewrite IH.
Qed.

Lemma rstrip_first c s :
  is_space c = false ->
  exists r, str_rstrip (String c s) = String c r.
Proof.
  intros Hc. simpl. destruct (str_rstrip s); rewrite ?Hc; eauto.
Qed.

Lemma lstrip_stripped s : str_lstrip (str_strip s) = str_strip s.
Proof.
  unfold str_strip. induction s as [|c s IH]; [reflexivity|].
  simpl. destruct (is_space c) eqn:Ec; [exact IH|].
  destruct (rstrip_first c s Ec) as [r ->]. simpl. now rewrite Ec.
Qed.

Lemma strip_idempotent s : str_strip (str_strip s) = str_strip s.
Proof.
  unfold str_strip at 1. rewrite lstrip_stripped.
  unfold str_strip. apply rstrip_idempotent.
Qed.

Lemma strip_fences_plain s :
  str_contains "```" s = false -> strip_fences s = str_strip s.
Proof.
  intros Hf. unfold strip_fences, str_replace.
  rewrite (replace_from_missing "```json" "" s (json_fence_has_fence s Hf)).
  now rewrite (replace_from_missing "```" "" s Hf).
Qed.

(** X13. A response without any [```] is only trimmed, and cleaning is
    idempotent: cleaning a cleaned text changes nothing, and the cleaned
    text has no whitespace at either end. *)
Theorem strip_fences_idempotent :
  (forall s, str_contains "```" s = false -> strip_fences s = str_strip s)
  /\ (forall s, strip_fences (strip_fences s) = strip_fences s)
  /\ (forall s, str_strip (strip_fences s) = strip_fences s).
Proof.
  split; [exact strip_fences_plain|]. split.
  - intros s. rewrite (strip_fences_plain _ (strip_fences_clean s)).
    unfold strip_fences. apply strip_idempotent.
  - intros s. unfold strip_fences. apply strip_idempotent.
Qed.

Lemma strip_fences_idempotent_witness :
  strip_fences ("  " ++ files_answer_text ++ nl)
  = str_strip ("  " ++ files_answer_text ++ nl).
Proof.
  exact (proj1 strip_fences_idempotent ("  " ++ files_answer_text ++ nl)
           eq_refl).
Defined.

(* ================================================================= *)
(** ** What the requests hold *)





(* ================================================================= *)
(** ** The selectors do not check the selection *)

(** X15. A selector returns the value its key has in the response
    object as it is: other keys are ignored, and the value is not compared
    with the names that were offered, nor is its type checked. *)
Theorem selection_is_not_validated `{Runtime} (client : openai_client)
  (names strs : list string) (prompt text : string) (w : world)
  (d : pydict) (v : pyval) :
  json_loads (strip_fences text) = Some (PyDict d) ->
  (client (requests w) (files_request names prompt) = Ok text ->
   dict_lookup "relevant_files" d = Some v ->
   fst (get_relevant_files client names prompt w) = Ok v)
  /\ (client (requests w) (tables_request strs prompt) = Ok text ->
      dict_lookup "relevant_tables" d = Some v ->
      fst (pick_relevant_tables client strs prompt w) = Ok v).
Proof.
  intros Hjson. split; intros Htext Hkey.
  - rewrite get_relevant_files_run. cbn zeta. rewrite Htext. cbn [fst].
    unfold parse_selection, json_load. rewrite Hjson. simpl. now rewrite Hkey.
  - rewrite pick_relevant_tables_run. cbn zeta. rewrite Htext. cbn [fst].
    unfold parse_selection, json_load. rewrite Hjson. simpl. now rewrite Hkey.
Qed.

Lemma selection_is_not_validated_witness :
  fst (@get_relevant_files (more_runtime orders_files unknown_answers)
         (example_client unknown_answers) ["a.json"] "sales" empty_world)
  = Ok (str_list ["zz.json"]).
Proof.
  exact (proj1 (@selection_is_not_validated
                  (more_runtime orders_files unknown_answers)
                  (example_client unknown_answers) ["a.json"] [] "sales"
                  unknown_answer_text empty_world
                  [("relevant_files", str_list ["zz.json"])]
                  (str_list ["zz.json"]) eq_refl) eq_refl eq_refl).
Defined.

(* ================================================================= *)
(** ** The entry point *)

(** X16. The entry point runs the pipeline with an empty API key.  When
    the run completes, the last two things printed are the header and the
    text the chat service answered to the SQL request, as it is; when any
    stage raises, the exception leaves the entry point and no header is
    printed. *)
Theorem main_prints_the_final_query `{Runtime} (w : world) :
  (forall b w',
      run_full_process "" main_prompt w = (Ok b, w') ->
      main w
      = (Ok tt,
         {| stdout := ((stdout w' ++ [final_query_header])
                         ++ [final_sql_query b])%list;
            requests := requests w' |})
      /\ exists w2,
           OpenAI "" (requests w2)
             (sql_request (relevant_tables b) main_prompt (columns_info b))
           = Ok (final_sql_query b)
           /\ requests w'
              = (requests w2
                   ++ [sql_request (relevant_tables b) main_prompt
                         (columns_info b)])%list)
  /\ (forall e w',
        run_full_process "" main_prompt w = (Raise e, w') ->
        main w = (Raise e, w')).
Proof.
  split.
  - intros b w' Hrun. split.
    + unfold main, bind, print, main_api_key. now rewrite Hrun.
    + destruct (run_full_process_ok _ _ _ _ _ Hrun)
        as (w1 & w2 & _ & _ & _ & _ & _ & _ & Hsql).
      rewrite generate_sql_run in Hsql. cbn zeta in Hsql.
      injection Hsql as Hanswer Hworld. exists w2. split; [exact Hanswer|].
      now rewrite <- Hworld.
  - intros e w' Hrun. unfold main, bind, main_api_key. now rewrite Hrun.
Qed.

Lemma main_prints_the_final_query_witness :
  fst (@main (example_runtime orders_files main_answers) empty_world) = Ok tt
  /\ fst (@main (example_runtime broken_files []) empty_world)
     = Raise JSONDecodeError.
Proof.
  split.
  - pose proof (proj1 (@main_prints_the_final_query
                         (example_runtime orders_files main_answers)
                         empty_world)) as Hok.
    destruct (Hok {| all_data := corpus_value orders_corpus;
                     file_names := ["a.json"];
                     relevant_files := str_list ["a.json"];
                     tables := ["orders : sales orders"];
                     relevant_tables := str_list ["orders"];
                     columns_info := [descriptor_value orders_descriptor];
                     final_sql_query := fenced_sql |}
                  (snd (@run_full_process
                          (example_runtime orders_files main_answers)
                          "" main_prompt empty_world)))
      as [Hmain _]; [vm_compute; reflexivity|].
    now rewrite Hmain.
  - rewrite (proj2 (@main_prints_the_final_query
                      (example_runtime broken_files []) empty_world)
               JSONDecodeError empty_world); reflexivity.
Defined.

(* ================================================================= *)
(** ** Table names that are not strings *)

(** X17. The loader does not check the type of [table_name]: an object
    whose [table_name] is, say, a number is loaded like any other.  The
    extractor then shows [repr] of the name; the gatherer, as soon as the
    relevant-table list has a string, raises [TypeError] at that table,
    and returns nothing for it when the list is empty. *)
Theorem table_name_that_is_not_a_string `{Runtime} (n : pyval) (f rt : string)
  (rts : list string) :
  is_str n = false ->
  let loaded := PyDict [("table_name", n); ("table_description", PyStr "");
                        ("columns", PyList [])] in
  load_tables (PyList [PyDict [("table_name", n)]]) = Ok [loaded]
  /\ get_tables_from_files (str_list [f]) [(f, PyList [loaded])]
     = Ok [py_repr n ++ " : "]
  /\ grab_table_info (str_list (rt :: rts)) (str_list [f])
       [(f, PyList [loaded])]
     = Raise TypeError
  /\ grab_table_info (str_list []) (str_list [f]) [(f, PyList [loaded])]
     = Ok [].
Proof.
  intros Hn loaded.
  assert (Hkey : dict_lookup f [(f, PyList [loaded])]
                 = Some (PyList [loaded]))
    by (simpl; now rewrite String.eqb_refl).
  split; [|split; [|split]].
  - reflexivity.
  - unfold get_tables_from_files, str_list. cbn [map py_iter rbind for_each].
    unfold py_in_dict, dict_mem, py_dict_getitem. rewrite Hkey.
    cbn [rbind py_iter for_each]. unfold loaded.
    change (py_getitem_str (PyDict _) "table_name") with (Ok n).
    cbn [rbind]. destruct n; try discriminate; reflexivity.
  - unfold grab_table_info. unfold str_list at 1.
    cbn [map py_iter rbind for_each].
    unfold py_in_dict, dict_mem, py_dict_getitem. rewrite Hkey.
    cbn [rbind py_iter for_each]. unfold loaded.
    change (py_getitem_str (PyDict _) "table_name") with (Ok n).
    cbn [rbind str_list map py_iter py_any py_contains].
    destruct n; try discriminate; reflexivity.
  - unfold grab_table_info. unfold str_list at 1.
    cbn [map py_iter rbind for_each].
    unfold py_in_dict, dict_mem, py_dict_getitem. rewrite Hkey.
    cbn [rbind py_iter for_each]. reflexivity.
Qed.

Lemma table_name_that_is_not_a_string_witness :
  @get_table_clusters (more_runtime number_name_files []) default_folder_path
  = Ok [("n.json",
         PyList [PyDict [("table_name", PyInt 5);
                         ("table_description", PyStr "");
                         ("columns", PyList [])]])]
  /\ @grab_table_info (more_runtime number_name_files [])
       (str_list ["orders"]) (str_list ["n.json"])
       [("n.json",
         PyList [PyDict [("table_name", PyInt 5);
                         ("table_description", PyStr "");
                         ("columns", PyList [])]])]
     = Raise TypeError.
Proof.
  split; [reflexivity|].
  exact (proj1 (proj2 (proj2 (@table_name_that_is_not_a_string
                                (more_runtime number_name_files [])
                                (PyInt 5) "n.json" "orders" [] eq_refl)))).
Defined.

(* ================================================================= *)
(** ** Loading complete descriptors *)

Lemma built_complete_descriptors ts :
  built_descriptors (map descriptor_value ts) = map descriptor_value ts.
Proof.
  unfold built_descriptors.
  induction ts as [|t ts IH]; simpl; [reflexivity | now rewrite IH].
Qed.

Lemma element_ok_descriptors `{Runtime} ts :
  forallb element_ok (map descriptor_value ts) = true.
Proof. induction ts as [|t ts IH]; simpl; [reflexivity | exact IH]. Qed.

Lemma dict_set_new d k v :
  ~ In k (dict_keys d) -> dict_set d k v = (d ++ [(k, v)])%list.
Proof.
  induction d as [|[k0 v0] d IH]; simpl; intros Hk; [reflexivity|].
  destruct (String.eqb k0 k) eqn:E.
  - apply String.eqb_eq in E. destruct Hk. now left.
  - rewrite IH; [reflexivity|]. intros Hin. apply Hk. now right.
Qed.

Lemma load_complete_files `{Runtime}
  (entries : list (string * list TableDescriptor)) :
  (forall p ts,
      In (p, ts) entries ->
      exists text,
        open_read p = Ok text
        /\ json_loads text = Some (PyList (map descriptor_value ts))) ->
  forall acc,
    NoDup (dict_keys acc ++ map (fun e => basename (fst e)) entries) ->
    for_each (map fst entries) load_file acc
    = Ok (acc ++ corpus_value (corpus_of_files entries))%list.
Proof.
  induction entries as [|[p ts] entries IH]; intros Hfiles acc Hnd; simpl.
  - now rewrite app_nil_r.
  - destruct (Hfiles p ts (or_introl eq_refl)) as (text & Hopen & Hjson).
    unfold load_file at 1. rewrite Hopen. cbn [rbind]. unfold json_load.
    rewrite Hjson. cbn [rbind].
    rewrite load_tables_list, element_ok_descriptors,
      built_complete_descriptors.
    cbn [rbind]. simpl in Hnd.
    rewrite dict_set_new
      by (intros Hin; apply NoDup_remove_2 in Hnd; apply Hnd;
          apply in_or_app; now left).
    rewrite IH.
    + now rewrite <- app_assoc.
    + intros q qs Hq. apply Hfiles. now right.
    + unfold dict_keys. rewrite map_app. simpl. rewrite <- app_assoc.
      exact Hnd.
Qed.

(** X18. Round trip: when every matched file is a JSON array of complete
    descriptors (objects with exactly the three keys, string name and
    description) and no two files have the same base name, the loader
    returns these descriptors unchanged, file by file, in the order of the
    files. *)
Theorem loading_complete_descriptors `{Runtime} (folder_path : string)
  (entries : list (string * list TableDescriptor)) :
  glob_glob folder_path = map fst entries ->
  NoDup (map (fun e => basename (fst e)) entries) ->
  (forall p ts,
      In (p, ts) entries ->
      exists text,
        open_read p = Ok text
        /\ json_loads text = Some (PyList (map descriptor_value ts))) ->
  get_table_clusters folder_path = Ok (corpus_value (corpus_of_files entries))
  /\ forall ts,
       load_tables (PyList (map descriptor_value ts))
       = Ok (map descriptor_value ts).
Proof.
  intros Hglob Hnd Hfiles. split.
  - unfold get_table_clusters. rewrite Hglob.
    exact (load_complete_files entries Hfiles [] Hnd).
  - intros ts. now rewrite load_tables_list, element_ok_descriptors,
      built_complete_descriptors.
Qed.

Lemma loading_complete_descriptors_witness :
  @get_table_clusters (example_runtime orders_files []) default_folder_path
  = Ok (corpus_value
          (corpus_of_files [("prospr/a.json", [orders_descriptor])])).
Proof.
  assert (Hnd : NoDup (map (fun e : string * list TableDescriptor =>
                              basename (fst e))
                         [("prospr/a.json", [orders_descriptor])]))
    by (repeat constructor; intros []).
  assert (Hfiles : forall p ts,
             In (p, ts) [("prospr/a.json", [orders_descriptor])] ->
             exists text,
               @open_read (example_runtime orders_files []) p = Ok text
               /\ @json_loads (example_runtime orders_files []) text
                  = Some (PyList (map descriptor_value ts))).
  { intros p ts [[= <- <-]|[]]. exists orders_file_text.
    split; reflexivity. }
  exact (proj1 (@loading_complete_descriptors
                  (example_runtime orders_files []) default_folder_path
                  [("prospr/a.json", [orders_descriptor])] eq_refl
                  Hnd Hfiles)).
Defined.
